(** * The run-endpoint worker: [workers/run-endpoint/src/index.js]

    A shallow embedding of the worker's [fetch(request, env)] handler and
    the properties of its request/response contract.

    JavaScript strings are sequences of UTF-16 code units, values are the
    JavaScript values that [JSON.parse] and the handler's object literals
    can produce, and the one [await fetch(...)] is an effect of a small
    free monad whose interpreter records the outbound calls. *)

From Stdlib Require Import List NArith Bool Ascii String DecimalString Lia.
Import ListNotations.
Set Warnings "-register-all".
Local Open Scope N_scope.
Local Open Scope list_scope.

(** ** Strings *)

(** A JavaScript string: its UTF-16 code units. *)
Definition jsstring : Type := list N.

(** A source-code string literal (ASCII). *)
Definition js (s : string) : jsstring :=
  map N_of_ascii (list_ascii_of_string s).

(** The same, for literals that contain double quotes: the literal is
    written with an apostrophe (U+0027) wherever the JavaScript text has a
    double quote (U+0022).  None of the worker's texts has an apostrophe. *)
Definition jsq (s : string) : jsstring :=
  map (fun u => if u =? 39 then 34 else u) (js s).

(** [a === b] on strings. *)
Fixpoint str_eqb (a b : jsstring) : bool :=
  match a, b with
  | [], [] => true
  | x :: a', y :: b' => (x =? y) && str_eqb a' b'
  | _, _ => false
  end.

(** ECMAScript WhiteSpace and LineTerminator code points, the characters
    [String.prototype.trim] strips.  All lie in the Basic Multilingual
    Plane, so each is one code unit. *)
Definition is_white_space (u : N) : bool :=
  (u =? 0x9) || (u =? 0xA) || (u =? 0xB) || (u =? 0xC) || (u =? 0xD)
  || (u =? 0x20) || (u =? 0xA0) || (u =? 0x1680)
  || ((0x2000 <=? u) && (u <=? 0x200A))
  || (u =? 0x2028) || (u =? 0x2029) || (u =? 0x202F) || (u =? 0x205F)
  || (u =? 0x3000) || (u =? 0xFEFF).

Fixpoint trimStart (s : jsstring) : jsstring :=
  match s with
  | u :: s' => if is_white_space u then trimStart s' else s
  | [] => []
  end.

Definition trimEnd (s : jsstring) : jsstring := rev (trimStart (rev s)).

(** [s.trim()] *)
Definition trim (s : jsstring) : jsstring := trimEnd (trimStart s).

(** Surrogate code units. *)
Definition is_lead (u : N) : bool := (0xD800 <=? u) && (u <=? 0xDBFF).
Definition is_trail (u : N) : bool := (0xDC00 <=? u) && (u <=? 0xDFFF).

(** StringToCodePoints: a lead surrogate followed by a trail surrogate is
    one supplementary code point, any other code unit is a code point of
    its own. *)
Fixpoint StringToCodePoints (s : jsstring) : list N :=
  match s with
  | [] => []
  | u :: rest =>
      match rest with
      | v :: rest' =>
          if is_lead u && is_trail v
          then ((u - 0xD800) * 0x400 + (v - 0xDC00) + 0x10000)
                 :: StringToCodePoints rest'
          else u :: StringToCodePoints rest
      | [] => [u]
      end
  end.

(** UTF16EncodeCodePoint *)
Definition UTF16EncodeCodePoint (cp : N) : jsstring :=
  if cp <=? 0xFFFF then [cp]
  else [ (cp - 0x10000) / 0x400 + 0xD800 ; (cp - 0x10000) mod 0x400 + 0xDC00 ].

Definition CodePointsToString (cps : list N) : jsstring :=
  flat_map UTF16EncodeCodePoint cps.

Section CaseConversion.

(** The Unicode default upper-case mapping of a code point outside ASCII
    (UnicodeData and the unconditional SpecialCasing entries: one code
    point may map to several).  It is a table of the JavaScript engine,
    not of this repository. *)
Variable unicode_upper : N -> list N.

Definition toUppercase (cp : N) : list N :=
  if cp <? 0x80
  then (if (0x61 <=? cp) && (cp <=? 0x7A) then [cp - 0x20] else [cp])
  else unicode_upper cp.

(** [s.toUpperCase()] *)
Definition toUpperCase (s : jsstring) : jsstring :=
  CodePointsToString (flat_map toUppercase (StringToCodePoints s)).

End CaseConversion.

(** [/^[A-Z]{3}$/.test(s)]: no flags, so [^] and [$] are the two ends of
    the input. *)
Definition is_upper_letter (u : N) : bool := (0x41 <=? u) && (u <=? 0x5A).

Definition test_iata (s : jsstring) : bool :=
  match s with
  | [a; b; c] => is_upper_letter a && is_upper_letter b && is_upper_letter c
  | _ => false
  end.

(** Decimal digits of a non-negative integer (Number::toString on an
    integer below 10^21). *)
Definition N_to_string (n : N) : jsstring :=
  js (NilZero.string_of_uint (N.to_uint n)).

(** ** JavaScript values *)

Section Values.

(** The type of numbers.  A parsed request body holds IEEE doubles, kept
    abstract with their two observations below; the objects the handler
    serialises hold an HTTP status, a small non-negative integer. *)
Variable num : Type.

Inductive value : Type :=
| Undefined
| Null
| Bool (b : bool)
| Number (n : num)
| Str (s : jsstring)
| Arr (elems : list value)
| Obj (props : list (jsstring * value)).

(** An object is the list of its own properties in creation order.  For a
    parsed JSON text with a repeated member name the later member
    overwrites the earlier one, so a lookup keeps the last match. *)
Fixpoint own_property (props : list (jsstring * value)) (key : jsstring)
  : option value :=
  match props with
  | [] => None
  | (k, v) :: rest =>
      match own_property rest key with
      | Some w => Some w
      | None => if str_eqb k key then Some v else None
      end
  end.

(** ToBoolean of a number: false on +0, -0 and NaN. *)
Variable num_truthy : num -> bool.
(** Number::toString *)
Variable num_to_string : num -> jsstring.

Definition ToBoolean (v : value) : bool :=
  match v with
  | Undefined | Null => false
  | Bool b => b
  | Number n => num_truthy n
  | Str s => match s with [] => false | _ => true end
  | Arr _ | Obj _ => true
  end.

(** [a || b] *)
Definition or_else (a b : value) : value := if ToBoolean a then a else b.

Definition is_nullish (v : value) : bool :=
  match v with Undefined | Null => true | _ => false end.

(** [v.key] for a property name that is neither an array index nor
    [length] and that no built-in prototype defines; [None] is the
    TypeError of reading a property of [undefined] or [null]. *)
Definition GetV (v : value) (key : jsstring) : option value :=
  match v with
  | Undefined | Null => None
  | Obj props =>
      match own_property props key with
      | Some w => Some w
      | None => Some Undefined
      end
  | Bool _ | Number _ | Str _ | Arr _ => Some Undefined
  end.

(** [String(v)], that is ToString(v); [None] is a thrown TypeError.
    - An array goes through Array.prototype.join: elements separated by
      a comma, [undefined] and [null] elements printed as nothing.
    - A plain object goes through OrdinaryToPrimitive: when it has an
      own property [toString] (never callable in parsed JSON) the
      inherited [valueOf] returns the object itself and the conversion
      throws; otherwise Object.prototype.toString answers. *)
Fixpoint ToString (v : value) : option jsstring :=
  match v with
  | Undefined => Some (js "undefined")
  | Null => Some (js "null")
  | Bool true => Some (js "true")
  | Bool false => Some (js "false")
  | Number n => Some (num_to_string n)
  | Str s => Some s
  | Arr elems =>
      (fix join (first : bool) (l : list value) : option jsstring :=
         match l with
         | [] => Some []
         | e :: l' =>
             match (if is_nullish e then Some [] else ToString e), join false l' with
             | Some s, Some t => Some ((if first then [] else js ",") ++ s ++ t)
             | _, _ => None
             end
         end) true elems
  | Obj props =>
      match own_property props (js "toString") with
      | Some _ => None
      | None => Some (js "[object Object]")
      end
  end.

End Values.

Arguments Undefined {num}.
Arguments Null {num}.
Arguments Bool {num} b.
Arguments Number {num} n.
Arguments Str {num} s.
Arguments Arr {num} elems.
Arguments Obj {num} props.
Arguments own_property {num} props key.
Arguments GetV {num} v key.
Arguments or_else {num} num_truthy a b.

(** ** JSON.stringify *)

Definition hex_digit (d : N) : N :=
  if d <? 10 then 0x30 + d else 0x61 + (d - 10).

(** UnicodeEscape: a backslash, [u] and four lower-case hexadecimal digits. *)
Definition UnicodeEscape (u : N) : jsstring :=
  js "\u" ++ [ hex_digit (u / 0x1000 mod 16); hex_digit (u / 0x100 mod 16);
               hex_digit (u / 0x10 mod 16); hex_digit (u mod 16) ].

Definition quote_unit (u : N) : jsstring :=
  if u =? 0x8 then js "\b"
  else if u =? 0x9 then js "\t"
  else if u =? 0xA then js "\n"
  else if u =? 0xC then js "\f"
  else if u =? 0xD then js "\r"
  else if u =? 0x22 then [0x5C; 0x22]
  else if u =? 0x5C then [0x5C; 0x5C]
  else if u <? 0x20 then UnicodeEscape u
  else [u].

Fixpoint quote_units (s : jsstring) : jsstring :=
  match s with
  | [] => []
  | u :: rest =>
      if is_lead u then
        match rest with
        | v :: rest' =>
            if is_trail v then u :: v :: quote_units rest'
            else UnicodeEscape u ++ quote_units rest
        | [] => UnicodeEscape u
        end
      else if is_trail u then UnicodeEscape u ++ quote_units rest
      else quote_unit u ++ quote_units rest
  end.

(** QuoteJSONString: the text between double quotes, control characters,
    the quote, the backslash and lone surrogates escaped. *)
Definition QuoteJSONString (s : jsstring) : jsstring :=
  [0x22] ++ quote_units s ++ [0x22].

(** SerializeJSONProperty on the values the handler builds; [None] is
    [undefined].  A property whose value is [undefined] is left out of an
    object, and printed as [null] inside an array. *)
Fixpoint SerializeJSONProperty (v : value N) : option jsstring :=
  match v with
  | Undefined => None
  | Null => Some (js "null")
  | Bool true => Some (js "true")
  | Bool false => Some (js "false")
  | Number n => Some (N_to_string n)
  | Str s => Some (QuoteJSONString s)
  | Arr elems =>
      Some (js "[" ++
            (fix items (first : bool) (l : list (value N)) : jsstring :=
               match l with
               | [] => []
               | e :: l' =>
                   (if first then [] else js ",")
                     ++ match SerializeJSONProperty e with
                        | Some t => t
                        | None => js "null"
                        end
                     ++ items false l'
               end) true elems
            ++ js "]")
  | Obj props =>
      Some (js "{" ++
            (fix members (first : bool) (l : list (jsstring * value N)) : jsstring :=
               match l with
               | [] => []
               | (k, w) :: l' =>
                   match SerializeJSONProperty w with
                   | Some t =>
                       (if first then [] else js ",")
                         ++ QuoteJSONString k ++ js ":" ++ t ++ members false l'
                   | None => members first l'
                   end
               end) true props
            ++ js "}")
  end.

(** [JSON.stringify(v)] *)
Definition JSON_stringify (v : value N) : option jsstring :=
  SerializeJSONProperty v.

(** ** The runtime interface: requests, responses, the outbound call *)

(** A header list or any string-valued object literal, in creation order. *)
Definition dict : Type := list (jsstring * jsstring).

(** [{ ...o, key: v }]: the properties of [o], then [key]; a key that [o]
    already has keeps its place and takes the new value. *)
Fixpoint spread_with (o : dict) (key v : jsstring) : dict :=
  match o with
  | [] => [(key, v)]
  | (k, w) :: o' =>
      if str_eqb k key then (k, v) :: o' else (k, w) :: spread_with o' key v
  end.

(** What [new Response(body, { status, headers })] is given; a [None] body
    is [null]. *)
Record Response : Type := new_Response {
  resp_body : option jsstring;
  resp_status : N;
  resp_headers : dict
}.

(** The second argument of the global [fetch]. *)
Record RequestInit : Type := {
  init_method : jsstring;
  init_headers : dict;
  init_body : option jsstring
}.

(** The response the global [fetch] resolves with: its [status], and what
    [text()] settles to ([None]: the promise rejects). *)
Record FetchResponse : Type := {
  status : N;
  text : option jsstring
}.

(** [r.ok]: the status is in the range 200 to 299. *)
Definition ok (r : FetchResponse) : bool :=
  (200 <=? status r) && (status r <=? 299).

(** [await r.text().catch(() => dflt)] *)
Definition text_catch (r : FetchResponse) (dflt : jsstring) : jsstring :=
  match text r with
  | Some t => t
  | None => dflt
  end.

Inductive exn : Type :=
| TypeError      (* thrown by a property read or a string conversion *)
| FetchRejected. (* the rejection of the global [fetch] *)

(** An async function body: it returns, throws, or awaits the global
    [fetch] and goes on with the response. *)
Inductive Async (A : Type) : Type :=
| Return (a : A)
| Throw (e : exn)
| AwaitFetch (url : jsstring) (init : RequestInit) (k : FetchResponse -> Async A).

Arguments Return {A} a.
Arguments Throw {A} e.
Arguments AwaitFetch {A} url init k.

Fixpoint bind {A B : Type} (m : Async A) (f : A -> Async B) : Async B :=
  match m with
  | Return a => f a
  | Throw e => Throw e
  | AwaitFetch url init k => AwaitFetch url init (fun r => bind (k r) f)
  end.

Declare Scope async_scope.
Delimit Scope async_scope with async.
Notation "x <- m ;; k" := (bind m (fun x => k))
  (at level 100, m at next level, right associativity) : async_scope.

(** [await fetch(url, init)] *)
Definition global_fetch (url : jsstring) (init : RequestInit) : Async FetchResponse :=
  AwaitFetch url init Return.

(** An operation that may throw a TypeError. *)
Definition or_throw {A : Type} (o : option A) : Async A :=
  match o with
  | Some a => Return a
  | None => Throw TypeError
  end.

(** One outbound call as the network sees it. *)
Definition FetchCall : Type := (jsstring * RequestInit)%type.

Inductive FetchOutcome : Type :=
| Resolved (r : FetchResponse)
| Rejected.

(** The world outside the worker. *)
Definition Network : Type := FetchCall -> FetchOutcome.

Inductive Completion (A : Type) : Type :=
| Returned (a : A)
| Threw (e : exn).

Arguments Returned {A} a.
Arguments Threw {A} e.

(** Running a handler against a network: the outbound calls in the order
    they were made, and how the handler completed.  A rejected [fetch] is
    not caught anywhere in the worker, so it ends the run. *)
Fixpoint run {A : Type} (net : Network) (p : Async A) : list FetchCall * Completion A :=
  match p with
  | Return a => ([], Returned a)
  | Throw e => ([], Threw e)
  | AwaitFetch url init k =>
      match net (url, init) with
      | Rejected => ([(url, init)], Threw FetchRejected)
      | Resolved r =>
          let (calls, c) := run net (k r) in ((url, init) :: calls, c)
      end
  end.

(** The inbound request: its method and what [request.json()] settles to
    ([None]: the body is not JSON and the promise rejects). *)
Record Request (num : Type) : Type := {
  method : jsstring;
  json : option (value num)
}.

Arguments method {num} r.
Arguments json {num} r.

(** The worker's bindings; [None] is an unset binding ([undefined]). *)
Record Env : Type := {
  GH_OWNER : option jsstring;
  GH_REPO : option jsstring;
  GH_WORKFLOW_FILE : option jsstring;
  GH_WORKFLOW_REF : option jsstring;
  GH_TOKEN : option jsstring
}.

(** ToBoolean of a binding: [undefined] and the empty string are falsy. *)
Definition truthy (x : option jsstring) : bool :=
  match x with
  | Some (_ :: _) => true
  | _ => false
  end.

(** A binding inside a template literal. *)
Definition interpolate (x : option jsstring) : jsstring :=
  match x with
  | Some s => s
  | None => js "undefined"
  end.

(** A binding as a property value. *)
Definition binding_value (x : option jsstring) : value N :=
  match x with
  | Some s => Str s
  | None => Undefined
  end.

(** ** The handler *)

Section Handler.

Variable num : Type.
Variable num_truthy : num -> bool.
Variable num_to_string : num -> jsstring.
Variable unicode_upper : N -> list N.

Local Open Scope async_scope.

(** The [cors] object literal. *)
Definition cors : dict :=
  [ (js "Access-Control-Allow-Origin", js "*");
    (js "Access-Control-Allow-Methods", js "POST,OPTIONS");
    (js "Access-Control-Allow-Headers", js "content-type") ].

(** [String(body.iata || "").trim().toUpperCase()]; [None] when the
    property read or the conversion throws. *)
Definition normalize_iata (body : value num) : option jsstring :=
  match GetV body (js "iata") with
  | None => None
  | Some field =>
      match ToString num num_to_string (or_else num_truthy field (Str [])) with
      | None => None
      | Some s => Some (toUpperCase unicode_upper (trim s))
      end
  end.

(** The exported [async fetch(request, env)].  Only [request.json()] sits
    inside a [try]; a throw of the normalization or a rejection of the
    outbound call leaves the handler. *)
Definition fetch (request : Request num) (env : Env) : Async Response :=
  if str_eqb (method request) (js "OPTIONS") then
    Return (new_Response None 204 cors)
  else if negb (str_eqb (method request) (js "POST")) then
    Return (new_Response
              (JSON_stringify (Obj [(js "ok", Bool false); (js "error", Str (js "POST only"))]))
              405
              (spread_with cors (js "content-type") (js "application/json")))
  else
    match json request with
    | None =>
        Return (new_Response
                  (JSON_stringify (Obj [(js "ok", Bool false); (js "error", Str (js "Invalid JSON"))]))
                  400
                  (spread_with cors (js "content-type") (js "application/json")))
    | Some body =>
        iata <- or_throw (normalize_iata body) ;;
        if negb (test_iata iata) then
          Return (new_Response
                    (JSON_stringify (Obj [(js "ok", Bool false);
                                          (js "error", Str (js "IATA must be 3 letters"))]))
                    400
                    (spread_with cors (js "content-type") (js "application/json")))
        else
          let owner := GH_OWNER env in
          let repo := GH_REPO env in
          let workflow := GH_WORKFLOW_FILE env in
          let ref := GH_WORKFLOW_REF env in
          let token := GH_TOKEN env in
          if negb (truthy owner) || negb (truthy repo) || negb (truthy workflow)
             || negb (truthy ref) || negb (truthy token) then
            Return (new_Response
                      (JSON_stringify (Obj [(js "ok", Bool false);
                                            (js "error", Str (js "Missing env vars/secrets"))]))
                      500
                      (spread_with cors (js "content-type") (js "application/json")))
          else
            let url := js "https://api.github.com/repos/" ++ interpolate owner
                       ++ js "/" ++ interpolate repo
                       ++ js "/actions/workflows/" ++ interpolate workflow
                       ++ js "/dispatches" in
            r <- global_fetch url
                   {| init_method := js "POST";
                      init_headers :=
                        [ (js "Authorization", js "Bearer " ++ interpolate token);
                          (js "Accept", js "application/vnd.github+json");
                          (js "User-Agent", js "aviation-iia-run-endpoint");
                          (js "Content-Type", js "application/json") ];
                      init_body :=
                        JSON_stringify (Obj [(js "ref", binding_value ref);
                                             (js "inputs", Obj [(js "iata", Str iata)])]) |} ;;
            if negb (ok r) then
              let text := text_catch r [] in
              Return (new_Response
                        (JSON_stringify (Obj [(js "ok", Bool false);
                                              (js "error", Str (js "GitHub dispatch failed"));
                                              (js "status", Number (status r));
                                              (js "detail", Str text)]))
                        502
                        (spread_with cors (js "content-type") (js "application/json")))
            else
              Return (new_Response
                        (JSON_stringify (Obj [(js "ok", Bool true);
                                              (js "dispatched", Bool true);
                                              (js "iata", Str iata)]))
                        200
                        (spread_with cors (js "content-type") (js "application/json")))
    end.

End Handler.

(** ** The handler's paths *)

(** [{ ...cors, "content-type": "application/json" }], written out. *)
Definition json_headers : dict :=
  [ (js "Access-Control-Allow-Origin", js "*");
    (js "Access-Control-Allow-Methods", js "POST,OPTIONS");
    (js "Access-Control-Allow-Headers", js "content-type");
    (js "content-type", js "application/json") ].

(** The check of the five bindings. *)
Definition config_complete (env : Env) : bool :=
  truthy (GH_OWNER env) && truthy (GH_REPO env) && truthy (GH_WORKFLOW_FILE env)
  && truthy (GH_WORKFLOW_REF env) && truthy (GH_TOKEN env).

(** The outbound call as the handler builds it from the bindings and the
    normalized code. *)
Definition dispatch_call (env : Env) (iata : jsstring) : FetchCall :=
  ( js "https://api.github.com/repos/" ++ interpolate (GH_OWNER env)
      ++ js "/" ++ interpolate (GH_REPO env)
      ++ js "/actions/workflows/" ++ interpolate (GH_WORKFLOW_FILE env)
      ++ js "/dispatches",
    {| init_method := js "POST";
       init_headers :=
         [ (js "Authorization", js "Bearer " ++ interpolate (GH_TOKEN env));
           (js "Accept", js "application/vnd.github+json");
           (js "User-Agent", js "aviation-iia-run-endpoint");
           (js "Content-Type", js "application/json") ];
       init_body :=
         JSON_stringify (Obj [(js "ref", binding_value (GH_WORKFLOW_REF env));
                              (js "inputs", Obj [(js "iata", Str iata)])]) |} ).

(** An outbound call with the value of its Authorization header blanked. *)
Definition redact_authorization (c : FetchCall) : FetchCall :=
  ( fst c,
    {| init_method := init_method (snd c);
       init_headers :=
         map (fun h => if str_eqb (fst h) (js "Authorization") then (fst h, []) else h)
             (init_headers (snd c));
       init_body := init_body (snd c) |} ).

(** The bindings with another token. *)
Definition with_token (env : Env) (token : option jsstring) : Env :=
  {| GH_OWNER := GH_OWNER env;
     GH_REPO := GH_REPO env;
     GH_WORKFLOW_FILE := GH_WORKFLOW_FILE env;
     GH_WORKFLOW_REF := GH_WORKFLOW_REF env;
     GH_TOKEN := token |}.

Section Paths.

Variable num : Type.
Variable num_truthy : num -> bool.
Variable num_to_string : num -> jsstring.
Variable unicode_upper : N -> list N.

(** The paths through the handler, one constructor per [return], per
    throw and per way the awaited call settles: the calls made and the
    completion. *)
Inductive handled (request : Request num) (env : Env) (net : Network)
  : list FetchCall -> Completion Response -> Prop :=
| handled_preflight :
    method request = js "OPTIONS" ->
    handled request env net [] (Returned (new_Response None 204 cors))
| handled_method :
    method request <> js "OPTIONS" ->
    method request <> js "POST" ->
    handled request env net []
      (Returned (new_Response
                   (JSON_stringify (Obj [(js "ok", Bool false); (js "error", Str (js "POST only"))]))
                   405 json_headers))
| handled_invalid_json :
    method request = js "POST" ->
    json request = None ->
    handled request env net []
      (Returned (new_Response
                   (JSON_stringify (Obj [(js "ok", Bool false); (js "error", Str (js "Invalid JSON"))]))
                   400 json_headers))
| handled_type_error body :
    method request = js "POST" ->
    json request = Some body ->
    normalize_iata num num_truthy num_to_string unicode_upper body = None ->
    handled request env net [] (Threw TypeError)
| handled_bad_iata body iata :
    method request = js "POST" ->
    json request = Some body ->
    normalize_iata num num_truthy num_to_string unicode_upper body = Some iata ->
    test_iata iata = false ->
    handled request env net []
      (Returned (new_Response
                   (JSON_stringify (Obj [(js "ok", Bool false);
                                         (js "error", Str (js "IATA must be 3 letters"))]))
                   400 json_headers))
| handled_missing_config body iata :
    method request = js "POST" ->
    json request = Some body ->
    normalize_iata num num_truthy num_to_string unicode_upper body = Some iata ->
    test_iata iata = true ->
    config_complete env = false ->
    handled request env net []
      (Returned (new_Response
                   (JSON_stringify (Obj [(js "ok", Bool false);
                                         (js "error", Str (js "Missing env vars/secrets"))]))
                   500 json_headers))
| handled_fetch_rejected body iata :
    method request = js "POST" ->
    json request = Some body ->
    normalize_iata num num_truthy num_to_string unicode_upper body = Some iata ->
    test_iata iata = true ->
    config_complete env = true ->
    net (dispatch_call env iata) = Rejected ->
    handled request env net [dispatch_call env iata] (Threw FetchRejected)
| handled_dispatch_failed body iata r :
    method request = js "POST" ->
    json request = Some body ->
    normalize_iata num num_truthy num_to_string unicode_upper body = Some iata ->
    test_iata iata = true ->
    config_complete env = true ->
    net (dispatch_call env iata) = Resolved r ->
    ok r = false ->
    handled request env net [dispatch_call env iata]
      (Returned (new_Response
                   (JSON_stringify (Obj [(js "ok", Bool false);
                                         (js "error", Str (js "GitHub dispatch failed"));
                                         (js "status", Number (status r));
                                         (js "detail", Str (text_catch r []))]))
                   502 json_headers))
| handled_dispatched body iata r :
    method request = js "POST" ->
    json request = Some body ->
    normalize_iata num num_truthy num_to_string unicode_upper body = Some iata ->
    test_iata iata = true ->
    config_complete env = true ->
    net (dispatch_call env iata) = Resolved r ->
    ok r = true ->
    handled request env net [dispatch_call env iata]
      (Returned (new_Response
                   (JSON_stringify (Obj [(js "ok", Bool true);
                                         (js "dispatched", Bool true);
                                         (js "iata", Str iata)]))
                   200 json_headers)).

End Paths.

(** ** ASCII text *)

(** What [toUpperCase] does to one ASCII code unit. *)
Definition ascii_upper (u : N) : N :=
  if (0x61 <=? u) && (u <=? 0x7A) then u - 0x20 else u.

(** An ASCII letter of either case. *)
Definition is_ascii_letter (u : N) : bool :=
  ((0x41 <=? u) && (u <=? 0x5A)) || ((0x61 <=? u) && (u <=? 0x7A)).

Definition is_ascii (u : N) : bool := u <? 0x80.

(** A text without control characters: no code unit below U+0020. *)
Definition printable (s : jsstring) : bool := forallb (fun u => 0x20 <=? u) s.

(** ** Sample runtime and inputs *)

(** A runtime whose numbers are the naturals, with a few entries of the
    upper-case table: sharp s, dotless i, long s and the fi ligature. *)
Definition sample_truthy (n : N) : bool := negb (n =? 0).

Definition sample_upper (cp : N) : list N :=
  if cp =? 0xDF then [0x53; 0x53]
  else if cp =? 0x131 then [0x49]
  else if cp =? 0x17F then [0x53]
  else if cp =? 0xFB01 then [0x46; 0x49]
  else [cp].

Definition sample_env : Env :=
  {| GH_OWNER := Some (js "octo");
     GH_REPO := Some (js "aviation");
     GH_WORKFLOW_FILE := Some (js "run-both.yml");
     GH_WORKFLOW_REF := Some (js "global_integration");
     GH_TOKEN := Some (js "s3cr3t") |}.

(** The request [POST] with body [{"iata": code}]. *)
Definition post_iata (code : jsstring) : Request N :=
  {| method := js "POST"; json := Some (Obj [(js "iata", Str code)]) |}.

(** An upstream that answers every call alike. *)
Definition upstream (st : N) (body : option jsstring) : Network :=
  fun _ => Resolved {| status := st; text := body |}.

(** The handler and its normalization on the sample runtime. *)
Definition sample_fetch : Request N -> Env -> Async Response :=
  fetch N sample_truthy N_to_string sample_upper.

Definition sample_normalize : value N -> option jsstring :=
  normalize_iata N sample_truthy N_to_string sample_upper.

(** No binding set. *)
Definition empty_env : Env :=
  {| GH_OWNER := None; GH_REPO := None; GH_WORKFLOW_FILE := None;
     GH_WORKFLOW_REF := None; GH_TOKEN := None |}.

(** A network that cannot be reached. *)
Definition unreachable : Network := fun _ => Rejected.

(** ** Facts about strings and serialisation *)

Lemma str_eqb_eq (a b : jsstring) : str_eqb a b = true <-> a = b.
Proof.
  revert b; induction a as [|x a IH]; intros [|y b]; simpl; split;
    try congruence; try reflexivity.
  - intros H. apply andb_true_iff in H as [Hx Ha].
    apply N.eqb_eq in Hx. apply IH in Ha. congruence.
  - intros H. injection H as -> ->.
    rewrite N.eqb_refl. simpl. apply IH. reflexivity.
Qed.

Lemma str_eqb_neq (a b : jsstring) : str_eqb a b = false <-> a <> b.
Proof.
  split.
  - intros H E. apply str_eqb_eq in E. congruence.
  - intros H. destruct (str_eqb a b) eqn:E; [|reflexivity].
    apply str_eqb_eq in E. contradiction.
Qed.

(** What the pattern accepts: three code units, each from A to Z. *)
Lemma test_iata_spec (s : jsstring) :
  test_iata s = true <->
  exists a b c, s = [a; b; c] /\ (65 <= a <= 90) /\ (65 <= b <= 90) /\ (65 <= c <= 90).
Proof.
  unfold test_iata, is_upper_letter. split.
  - destruct s as [|a [|b [|c [|d s]]]]; try discriminate.
    intros H. apply andb_true_iff in H as [H Hc]. apply andb_true_iff in H as [Ha Hb].
    apply andb_true_iff in Ha as [Ha1 Ha2], Hb as [Hb1 Hb2], Hc as [Hc1 Hc2].
    apply N.leb_le in Ha1, Ha2, Hb1, Hb2, Hc1, Hc2.
    exists a, b, c. repeat split; assumption.
  - intros (a & b & c & -> & Ha & Hb & Hc).
    repeat (apply andb_true_iff; split); apply N.leb_le; lia.
Qed.

(** An upper-case letter needs no escape. *)
Lemma quote_units_letter (u : N) (rest : jsstring) :
  is_upper_letter u = true ->
  quote_units (u :: rest) = u :: quote_units rest.
Proof.
  unfold is_upper_letter. intros H.
  apply andb_true_iff in H as [Hlo Hhi].
  apply N.leb_le in Hlo, Hhi.
  assert (Hlead : is_lead u = false).
  { unfold is_lead. apply andb_false_iff. left. apply N.leb_gt. lia. }
  assert (Htrail : is_trail u = false).
  { unfold is_trail. apply andb_false_iff. left. apply N.leb_gt. lia. }
  assert (Hq : quote_unit u = [u]).
  { unfold quote_unit.
    repeat match goal with
           | |- context [?x =? ?y] =>
               replace (x =? y) with false by (symmetry; apply N.eqb_neq; lia)
           end.
    replace (u <? 32) with false by (symmetry; apply N.ltb_ge; lia).
    reflexivity. }
  simpl. rewrite Hlead, Htrail, Hq. reflexivity.
Qed.

Lemma QuoteJSONString_iata (code : jsstring) :
  test_iata code = true ->
  QuoteJSONString code = [34] ++ code ++ [34].
Proof.
  unfold test_iata. destruct code as [|a [|b [|c [|d s]]]]; try discriminate.
  intros H. apply andb_true_iff in H as [H Hc]. apply andb_true_iff in H as [Ha Hb].
  unfold QuoteJSONString.
  rewrite (quote_units_letter a), (quote_units_letter b), (quote_units_letter c)
    by assumption.
  reflexivity.
Qed.

(** [truthy] says the binding is set and not empty. *)
Lemma truthy_spec (x : option jsstring) :
  truthy x = true <-> exists s, x = Some s /\ s <> [].
Proof.
  split.
  - destruct x as [[|u s]|]; simpl; try discriminate.
    intros _. exists (u :: s). split; [reflexivity|discriminate].
  - intros (s & -> & Hs). destruct s; [contradiction|reflexivity].
Qed.

Lemma truthy_false (x : option jsstring) :
  truthy x = false <-> x = None \/ x = Some [].
Proof.
  destruct x as [[|u s]|]; simpl; split; intros H;
    try reflexivity; try discriminate; auto;
    destruct H as [H|H]; discriminate.
Qed.

Lemma ok_spec (r : FetchResponse) : ok r = true <-> 200 <= status r <= 299.
Proof.
  unfold ok. rewrite andb_true_iff, !N.leb_le. reflexivity.
Qed.

(** The response bodies, as text. *)
Lemma stringify_post_only :
  JSON_stringify (Obj [(js "ok", Bool false); (js "error", Str (js "POST only"))])
  = Some (jsq "{'ok':false,'error':'POST only'}").
Proof. reflexivity. Qed.

Lemma stringify_invalid_json :
  JSON_stringify (Obj [(js "ok", Bool false); (js "error", Str (js "Invalid JSON"))])
  = Some (jsq "{'ok':false,'error':'Invalid JSON'}").
Proof. reflexivity. Qed.

Lemma stringify_bad_iata :
  JSON_stringify (Obj [(js "ok", Bool false); (js "error", Str (js "IATA must be 3 letters"))])
  = Some (jsq "{'ok':false,'error':'IATA must be 3 letters'}").
Proof. reflexivity. Qed.

Lemma stringify_missing_config :
  JSON_stringify (Obj [(js "ok", Bool false); (js "error", Str (js "Missing env vars/secrets"))])
  = Some (jsq "{'ok':false,'error':'Missing env vars/secrets'}").
Proof. reflexivity. Qed.

Lemma stringify_dispatch_failed (st : N) (detail : jsstring) :
  JSON_stringify (Obj [(js "ok", Bool false);
                       (js "error", Str (js "GitHub dispatch failed"));
                       (js "status", Number st);
                       (js "detail", Str detail)])
  = Some (jsq "{'ok':false,'error':'GitHub dispatch failed','status':"
            ++ N_to_string st ++ jsq ",'detail':" ++ QuoteJSONString detail ++ jsq "}").
Proof.
  unfold JSON_stringify. cbn [SerializeJSONProperty].
  generalize (N_to_string st) (QuoteJSONString detail). intros a b.
  f_equal. repeat rewrite <- app_assoc. reflexivity.
Qed.

Lemma stringify_dispatched (iata : jsstring) :
  test_iata iata = true ->
  JSON_stringify (Obj [(js "ok", Bool true); (js "dispatched", Bool true); (js "iata", Str iata)])
  = Some (jsq "{'ok':true,'dispatched':true,'iata':'" ++ iata ++ jsq "'}").
Proof.
  intros H. unfold JSON_stringify. cbn [SerializeJSONProperty].
  rewrite (QuoteJSONString_iata iata H).
  f_equal. repeat rewrite <- app_assoc. reflexivity.
Qed.

Lemma stringify_dispatch_body (ref iata : jsstring) :
  test_iata iata = true ->
  JSON_stringify (Obj [(js "ref", Str ref); (js "inputs", Obj [(js "iata", Str iata)])])
  = Some (jsq "{'ref':" ++ QuoteJSONString ref
            ++ jsq ",'inputs':{'iata':'" ++ iata ++ jsq "'}}").
Proof.
  intros H. unfold JSON_stringify. cbn [SerializeJSONProperty].
  rewrite (QuoteJSONString_iata iata H).
  generalize (QuoteJSONString ref). intros q.
  f_equal. repeat rewrite <- app_assoc. reflexivity.
Qed.

(** ** The handler follows exactly one of its paths *)

Lemma spread_cors_content_type :
  spread_with cors (js "content-type") (js "application/json") = json_headers.
Proof. reflexivity. Qed.

Lemma config_check (env : Env) :
  negb (truthy (GH_OWNER env)) || negb (truthy (GH_REPO env))
  || negb (truthy (GH_WORKFLOW_FILE env)) || negb (truthy (GH_WORKFLOW_REF env))
  || negb (truthy (GH_TOKEN env)) = negb (config_complete env).
Proof.
  unfold config_complete.
  destruct (truthy (GH_OWNER env)), (truthy (GH_REPO env)),
    (truthy (GH_WORKFLOW_FILE env)), (truthy (GH_WORKFLOW_REF env)),
    (truthy (GH_TOKEN env)); reflexivity.
Qed.

Section Correctness.

Variable num : Type.
Variable num_truthy : num -> bool.
Variable num_to_string : num -> jsstring.
Variable unicode_upper : N -> list N.

Local Notation "'handler'" := (fetch num num_truthy num_to_string unicode_upper).
Local Notation "'normalized'" :=
  (normalize_iata num num_truthy num_to_string unicode_upper).
Local Notation "'follows'" := (handled num num_truthy num_to_string unicode_upper).

(** The handler unfolded at a POST whose body has been read and whose
    code has been normalized. *)
Lemma fetch_post (request : Request num) (env : Env) body iata :
  method request = js "POST" ->
  json request = Some body ->
  normalized body = Some iata ->
  handler request env =
    if negb (test_iata iata) then
      Return (new_Response
                (JSON_stringify (Obj [(js "ok", Bool false);
                                      (js "error", Str (js "IATA must be 3 letters"))]))
                400 json_headers)
    else if negb (config_complete env) then
      Return (new_Response
                (JSON_stringify (Obj [(js "ok", Bool false);
                                      (js "error", Str (js "Missing env vars/secrets"))]))
                500 json_headers)
    else
      AwaitFetch (fst (dispatch_call env iata)) (snd (dispatch_call env iata))
        (fun r =>
           if negb (ok r) then
             Return (new_Response
                       (JSON_stringify (Obj [(js "ok", Bool false);
                                             (js "error", Str (js "GitHub dispatch failed"));
                                             (js "status", Number (status r));
                                             (js "detail", Str (text_catch r []))]))
                       502 json_headers)
           else
             Return (new_Response
                       (JSON_stringify (Obj [(js "ok", Bool true);
                                             (js "dispatched", Bool true);
                                             (js "iata", Str iata)]))
                       200 json_headers)).
Proof.
  intros Hm Hj Hn. unfold fetch.
  rewrite Hm, Hj, Hn, config_check, spread_cors_content_type.
  change (str_eqb (js "POST") (js "OPTIONS")) with false.
  change (str_eqb (js "POST") (js "POST")) with true.
  cbn [negb or_throw bind].
  destruct (test_iata iata); [|reflexivity].
  destruct (config_complete env); [|reflexivity].
  cbn [negb global_fetch bind dispatch_call fst snd].
  f_equal.
Qed.

Lemma run_fetch_handled (request : Request num) (env : Env) (net : Network) :
  follows request env net (fst (run net (handler request env)))
                          (snd (run net (handler request env))).
Proof.
  destruct (str_eqb (method request) (js "OPTIONS")) eqn:Hopt.
  { unfold fetch. rewrite Hopt.
    apply handled_preflight, str_eqb_eq, Hopt. }
  destruct (str_eqb (method request) (js "POST")) eqn:Hpost.
  2:{ unfold fetch. rewrite Hopt, Hpost, spread_cors_content_type.
      apply handled_method; apply str_eqb_neq; assumption. }
  apply str_eqb_eq in Hpost.
  destruct (json request) as [body|] eqn:Hjson.
  2:{ unfold fetch.
      rewrite Hopt, Hpost, Hjson, spread_cors_content_type.
      apply handled_invalid_json; assumption. }
  destruct (normalized body) as [iata|] eqn:Hnorm.
  2:{ unfold fetch. rewrite Hopt, Hpost, Hjson, Hnorm.
      eapply handled_type_error; eassumption. }
  rewrite (fetch_post request env body iata Hpost Hjson Hnorm).
  destruct (test_iata iata) eqn:Htest.
  2:{ eapply handled_bad_iata; eassumption. }
  destruct (config_complete env) eqn:Hcfg.
  2:{ eapply handled_missing_config; eassumption. }
  cbn [negb run]. rewrite <- surjective_pairing.
  destruct (net (dispatch_call env iata)) as [r|] eqn:Hnet.
  2:{ eapply handled_fetch_rejected; eassumption. }
  destruct (ok r) eqn:Hok.
  - eapply handled_dispatched; eassumption.
  - eapply handled_dispatch_failed; eassumption.
Qed.

(** *** Running the handler on each path *)

Lemma run_bad_iata (request : Request num) (env : Env) (net : Network) body iata :
  method request = js "POST" ->
  json request = Some body ->
  normalized body = Some iata ->
  test_iata iata = false ->
  run net (handler request env) =
    ([], Returned (new_Response (Some (jsq "{'ok':false,'error':'IATA must be 3 letters'}"))
                                400 json_headers)).
Proof.
  intros Hm Hj Hn Ht.
  rewrite (fetch_post request env body iata Hm Hj Hn), Ht, stringify_bad_iata.
  reflexivity.
Qed.

Lemma run_missing_config (request : Request num) (env : Env) (net : Network) body iata :
  method request = js "POST" ->
  json request = Some body ->
  normalized body = Some iata ->
  test_iata iata = true ->
  config_complete env = false ->
  run net (handler request env) =
    ([], Returned (new_Response (Some (jsq "{'ok':false,'error':'Missing env vars/secrets'}"))
                                500 json_headers)).
Proof.
  intros Hm Hj Hn Ht Hc.
  rewrite (fetch_post request env body iata Hm Hj Hn), Ht, Hc, stringify_missing_config.
  reflexivity.
Qed.

Lemma run_dispatch (request : Request num) (env : Env) (net : Network) body iata :
  method request = js "POST" ->
  json request = Some body ->
  normalized body = Some iata ->
  test_iata iata = true ->
  config_complete env = true ->
  run net (handler request env) =
    ( [dispatch_call env iata],
      match net (dispatch_call env iata) with
      | Rejected => Threw FetchRejected
      | Resolved r =>
          if ok r then
            Returned (new_Response
                        (Some (jsq "{'ok':true,'dispatched':true,'iata':'" ++ iata ++ jsq "'}"))
                        200 json_headers)
          else
            Returned (new_Response
                        (Some (jsq "{'ok':false,'error':'GitHub dispatch failed','status':"
                                 ++ N_to_string (status r) ++ jsq ",'detail':"
                                 ++ QuoteJSONString (text_catch r []) ++ jsq "}"))
                        502 json_headers)
      end ).
Proof.
  intros Hm Hj Hn Ht Hc.
  rewrite (fetch_post request env body iata Hm Hj Hn), Ht, Hc.
  cbn [negb run]. rewrite <- surjective_pairing.
  destruct (net (dispatch_call env iata)) as [r|]; [|reflexivity].
  destruct (ok r); cbn [negb run].
  - rewrite (stringify_dispatched iata Ht). reflexivity.
  - rewrite stringify_dispatch_failed. reflexivity.
Qed.

(** The normalization of the documented example. *)
Example normalize_jfk :
  normalized (Obj [(js "iata", Str (js " jfk "))]) = Some (js "JFK")
  /\ test_iata (js "JFK") = true.
Proof. split; reflexivity. Qed.

(** An object that has its own [toString] member cannot be converted. *)
Example normalize_unconvertible :
  normalized (Obj [(js "iata", Obj [(js "toString", Null)])]) = None.
Proof. reflexivity. Qed.

(** *** The contract *)

(** C1 (the code departs from it).  A POST whose body is the JSON text
    [null] parses, yet reading [body.iata] throws a TypeError outside
    the [try]: the handler produces no response at all, where the
    specification promises status 400 with the message
    IATA must be 3 letters. *)
Theorem post_null_body_throws (env : Env) (net : Network) :
  run net (handler {| method := js "POST"; json := Some Null |} env)
  = ([], Threw TypeError).
Proof. reflexivity. Qed.

(** C2.  A POST whose normalized code is three upper-case letters, with
    the five bindings set and not empty, to which the upstream answers
    with a status from 200 to 299, returns status 200 and the body
    [{"ok":true,"dispatched":true,"iata":<normalized code>}]. *)
Theorem dispatch_success_200
  (request : Request num) (net : Network) body iata
  (owner repo workflow ref token : jsstring) (r : FetchResponse) :
  let env := {| GH_OWNER := Some owner; GH_REPO := Some repo;
                GH_WORKFLOW_FILE := Some workflow; GH_WORKFLOW_REF := Some ref;
                GH_TOKEN := Some token |} in
  method request = js "POST" ->
  json request = Some body ->
  normalized body = Some iata ->
  test_iata iata = true ->
  owner <> [] -> repo <> [] -> workflow <> [] -> ref <> [] -> token <> [] ->
  net (dispatch_call env iata) = Resolved r ->
  200 <= status r <= 299 ->
  snd (run net (handler request env)) =
    Returned (new_Response
                (Some (jsq "{'ok':true,'dispatched':true,'iata':'" ++ iata ++ jsq "'}"))
                200 json_headers).
Proof.
  intros env Hm Hj Hn Ht Ho Hr Hw Hf Hk Hnet Hst.
  assert (Hc : config_complete env = true).
  { destruct owner, repo, workflow, ref, token; try contradiction; reflexivity. }
  rewrite (run_dispatch request env net body iata Hm Hj Hn Ht Hc), Hnet.
  apply ok_spec in Hst. cbn [snd]. rewrite Hst. reflexivity.
Qed.

(** C3.  A request that passes the method gate, the body parse, the code
    validation and the configuration check makes exactly one outbound
    call: a POST to the workflow's dispatches URL with the four headers
    and the body [{"ref":<ref>,"inputs":{"iata":<normalized code>}}]. *)
Theorem dispatch_call_once
  (request : Request num) (net : Network) body iata
  (owner repo workflow ref token : jsstring) :
  method request = js "POST" ->
  json request = Some body ->
  normalized body = Some iata ->
  test_iata iata = true ->
  owner <> [] -> repo <> [] -> workflow <> [] -> ref <> [] -> token <> [] ->
  fst (run net (handler request
                  {| GH_OWNER := Some owner; GH_REPO := Some repo;
                     GH_WORKFLOW_FILE := Some workflow; GH_WORKFLOW_REF := Some ref;
                     GH_TOKEN := Some token |})) =
    [ ( js "https://api.github.com/repos/" ++ owner ++ js "/" ++ repo
          ++ js "/actions/workflows/" ++ workflow ++ js "/dispatches",
        {| init_method := js "POST";
           init_headers :=
             [ (js "Authorization", js "Bearer " ++ token);
               (js "Accept", js "application/vnd.github+json");
               (js "User-Agent", js "aviation-iia-run-endpoint");
               (js "Content-Type", js "application/json") ];
           init_body :=
             Some (jsq "{'ref':" ++ QuoteJSONString ref
                     ++ jsq ",'inputs':{'iata':'" ++ iata ++ jsq "'}}") |} ) ].
Proof.
  intros Hm Hj Hn Ht Ho Hr Hw Hf Hk.
  rewrite (run_dispatch request _ net body iata Hm Hj Hn Ht).
  - cbn [fst]. unfold dispatch_call.
    cbn [GH_OWNER GH_REPO GH_WORKFLOW_FILE GH_WORKFLOW_REF GH_TOKEN
         interpolate binding_value].
    rewrite (stringify_dispatch_body ref iata Ht). reflexivity.
  - destruct owner, repo, workflow, ref, token; try contradiction; reflexivity.
Qed.

(** C4.  When the outbound call is answered with a status outside 200 to
    299 the handler returns status 502 and the body
    [{"ok":false,"error":"GitHub dispatch failed","status":<upstream
    status>,"detail":<upstream text>}], the detail being the upstream
    body read as text, or the empty string when that read fails. *)
Theorem dispatch_failure_502
  (request : Request num) (env : Env) (net : Network)
  (call : FetchCall) (r : FetchResponse) :
  In call (fst (run net (handler request env))) ->
  net call = Resolved r ->
  ~ (200 <= status r <= 299) ->
  snd (run net (handler request env)) =
    Returned (new_Response
                (Some (jsq "{'ok':false,'error':'GitHub dispatch failed','status':"
                         ++ N_to_string (status r) ++ jsq ",'detail':"
                         ++ QuoteJSONString (match text r with
                                             | Some t => t
                                             | None => []
                                             end)
                         ++ jsq "}"))
                502 json_headers).
Proof.
  intros Hin Hnet Hst.
  pose proof (run_fetch_handled request env net) as Hpath.
  remember (fst (run net (handler request env))) as calls eqn:Hcalls.
  remember (snd (run net (handler request env))) as done eqn:Hdone.
  destruct Hpath as
    [ Hm | Hm1 Hm2 | Hm Hj | body Hm Hj Hn | body iata Hm Hj Hn Ht
    | body iata Hm Hj Hn Ht Hc | body iata Hm Hj Hn Ht Hc Hrej
    | body iata r' Hm Hj Hn Ht Hc Hres Hok
    | body iata r' Hm Hj Hn Ht Hc Hres Hok ];
    try contradiction; destruct Hin as [<-|[]]; try congruence.
  - rewrite Hres in Hnet. injection Hnet as <-.
    rewrite stringify_dispatch_failed. reflexivity.
  - rewrite Hres in Hnet. injection Hnet as <-.
    apply ok_spec in Hok. contradiction.
Qed.

(** C5.  With a valid code, a binding that is unset or empty gives
    status 500 and the message Missing env vars/secrets; with an invalid
    code the answer is status 400 whatever the bindings are, because the
    bindings are looked at only after the code. *)
Theorem config_checked_after_validation :
  (forall (request : Request num) (env : Env) (net : Network) body iata,
      method request = js "POST" ->
      json request = Some body ->
      normalized body = Some iata ->
      test_iata iata = true ->
      (exists x,
          In x [GH_OWNER env; GH_REPO env; GH_WORKFLOW_FILE env;
                GH_WORKFLOW_REF env; GH_TOKEN env]
          /\ (x = None \/ x = Some [])) ->
      run net (handler request env) =
        ([], Returned (new_Response
                         (Some (jsq "{'ok':false,'error':'Missing env vars/secrets'}"))
                         500 json_headers)))
  /\
  (forall (request : Request num) (env : Env) (net : Network) body iata,
      method request = js "POST" ->
      json request = Some body ->
      normalized body = Some iata ->
      test_iata iata = false ->
      run net (handler request env) =
        ([], Returned (new_Response
                         (Some (jsq "{'ok':false,'error':'IATA must be 3 letters'}"))
                         400 json_headers))).
Proof.
  split.
  - intros request env net body iata Hm Hj Hn Ht (x & Hin & Hx).
    apply (run_missing_config request env net body iata Hm Hj Hn Ht).
    apply truthy_false in Hx. unfold config_complete.
    simpl in Hin.
    destruct Hin as [<-|[<-|[<-|[<-|[<-|[]]]]]]; rewrite Hx;
      rewrite ?andb_false_r; reflexivity.
  - intros request env net body iata. apply run_bad_iata.
Qed.

(** C6.  Whatever the handler returns to a request other than OPTIONS,
    on each of the branches 405, 400, 500, 502 and 200, has the three
    CORS headers followed by content-type: application/json. *)
Theorem responses_carry_cors
  (request : Request num) (env : Env) (net : Network) (resp : Response) :
  method request <> js "OPTIONS" ->
  snd (run net (handler request env)) = Returned resp ->
  resp_headers resp =
    [ (js "Access-Control-Allow-Origin", js "*");
      (js "Access-Control-Allow-Methods", js "POST,OPTIONS");
      (js "Access-Control-Allow-Headers", js "content-type");
      (js "content-type", js "application/json") ]
  /\ In (resp_status resp) [405; 400; 500; 502; 200].
Proof.
  intros Hm Hret.
  pose proof (run_fetch_handled request env net) as Hpath.
  remember (fst (run net (handler request env))) as calls eqn:Hcalls.
  remember (snd (run net (handler request env))) as done eqn:Hdone.
  destruct Hpath; try contradiction; try discriminate;
    injection Hret as <-; split; try reflexivity;
    cbn [resp_status In]; auto 10.
Qed.

Lemma config_complete_with_token (env : Env) (token : jsstring) :
  token <> [] ->
  config_complete (with_token env (Some token)) =
    truthy (GH_OWNER env) && truthy (GH_REPO env)
    && truthy (GH_WORKFLOW_FILE env) && truthy (GH_WORKFLOW_REF env).
Proof.
  intros H. unfold config_complete, with_token. cbn [GH_OWNER GH_REPO
    GH_WORKFLOW_FILE GH_WORKFLOW_REF GH_TOKEN].
  destruct token; [contradiction|]. cbn [truthy]. apply andb_true_r.
Qed.

Lemma redact_dispatch_call (env : Env) (token1 token2 iata : jsstring) :
  redact_authorization (dispatch_call (with_token env (Some token1)) iata)
  = redact_authorization (dispatch_call (with_token env (Some token2)) iata).
Proof. reflexivity. Qed.

(** C7.  Two runs that differ only in a non-empty GH_TOKEN, on the same
    request and against an upstream whose answer does not depend on the
    Authorization header, complete alike: the same response (status,
    headers and body) or the same failure; and their outbound calls are
    the same once the Authorization value is blanked. *)
Theorem token_never_echoed
  (request : Request num) (env : Env) (token1 token2 : jsstring) (net : Network) :
  token1 <> [] ->
  token2 <> [] ->
  (forall c1 c2, redact_authorization c1 = redact_authorization c2 -> net c1 = net c2) ->
  snd (run net (handler request (with_token env (Some token1))))
  = snd (run net (handler request (with_token env (Some token2))))
  /\ map redact_authorization
         (fst (run net (handler request (with_token env (Some token1)))))
     = map redact_authorization
         (fst (run net (handler request (with_token env (Some token2))))).
Proof.
  intros H1 H2 Hnet.
  destruct (str_eqb (method request) (js "OPTIONS")) eqn:Hopt.
  { unfold fetch. rewrite Hopt. split; reflexivity. }
  destruct (str_eqb (method request) (js "POST")) eqn:Hpost.
  2:{ unfold fetch. rewrite Hopt, Hpost. split; reflexivity. }
  destruct (json request) as [body|] eqn:Hjson.
  2:{ unfold fetch. rewrite Hopt, Hpost, Hjson. split; reflexivity. }
  destruct (normalized body) as [iata|] eqn:Hnorm.
  2:{ unfold fetch. rewrite Hopt, Hpost, Hjson, Hnorm. split; reflexivity. }
  apply str_eqb_eq in Hpost.
  destruct (test_iata iata) eqn:Htest.
  2:{ rewrite !(run_bad_iata request _ net body iata Hpost Hjson Hnorm Htest).
      split; reflexivity. }
  pose proof (config_complete_with_token env token1 H1) as Hc1.
  pose proof (config_complete_with_token env token2 H2) as Hc2.
  destruct (truthy (GH_OWNER env) && truthy (GH_REPO env)
            && truthy (GH_WORKFLOW_FILE env) && truthy (GH_WORKFLOW_REF env)).
  - rewrite (run_dispatch request _ net body iata Hpost Hjson Hnorm Htest Hc1).
    rewrite (run_dispatch request _ net body iata Hpost Hjson Hnorm Htest Hc2).
    cbn [fst snd map].
    rewrite (redact_dispatch_call env token1 token2 iata).
    rewrite (Hnet _ _ (redact_dispatch_call env token1 token2 iata)).
    split; reflexivity.
  - rewrite (run_missing_config request _ net body iata Hpost Hjson Hnorm Htest Hc1).
    rewrite (run_missing_config request _ net body iata Hpost Hjson Hnorm Htest Hc2).
    split; reflexivity.
Qed.

(** C8.  A POST whose body is not JSON gets status 400 and the body
    [{"ok":false,"error":"Invalid JSON"}]. *)
Theorem invalid_json_400 (request : Request num) (env : Env) (net : Network) :
  method request = js "POST" ->
  json request = None ->
  run net (handler request env) =
    ([], Returned (new_Response (Some (jsq "{'ok':false,'error':'Invalid JSON'}"))
                                400 json_headers)).
Proof.
  intros Hm Hj. unfold fetch. rewrite Hm, Hj. reflexivity.
Qed.

(** C9.  The method gate: OPTIONS gets status 204, no body and the CORS
    headers; a method other than OPTIONS and POST gets status 405 and
    the body [{"ok":false,"error":"POST only"}]. *)
Theorem method_gate (request : Request num) (env : Env) (net : Network) :
  (method request = js "OPTIONS" ->
   run net (handler request env) =
     ([], Returned (new_Response None 204
                      [ (js "Access-Control-Allow-Origin", js "*");
                        (js "Access-Control-Allow-Methods", js "POST,OPTIONS");
                        (js "Access-Control-Allow-Headers", js "content-type") ])))
  /\
  (method request <> js "OPTIONS" ->
   method request <> js "POST" ->
   run net (handler request env) =
     ([], Returned (new_Response (Some (jsq "{'ok':false,'error':'POST only'}"))
                                 405 json_headers))).
Proof.
  split.
  - intros Hm. unfold fetch. rewrite Hm. reflexivity.
  - intros Hopt Hpost. apply str_eqb_neq in Hopt, Hpost.
    unfold fetch. rewrite Hopt, Hpost. reflexivity.
Qed.

(** C10.  A request answered with status 405, 400 or 500 has made no
    outbound call: the dispatch is only reached once the method, the
    body, the code and the bindings have all been accepted. *)
Theorem rejected_request_never_dispatches
  (request : Request num) (env : Env) (net : Network) (resp : Response) :
  snd (run net (handler request env)) = Returned resp ->
  In (resp_status resp) [405; 400; 500] ->
  fst (run net (handler request env)) = [].
Proof.
  intros Hret Hst.
  pose proof (run_fetch_handled request env net) as Hpath.
  remember (fst (run net (handler request env))) as calls eqn:Hcalls.
  remember (snd (run net (handler request env))) as done eqn:Hdone.
  destruct Hpath; try reflexivity; try discriminate;
    injection Hret as <-; cbn [resp_status In] in Hst;
    destruct Hst as [Hst|[Hst|[Hst|[]]]]; discriminate.
Qed.

End Correctness.

(** ** The contract on sample requests *)

(** C2 on [{"iata":"jfk"}] with an upstream that answers 204. *)
Lemma dispatch_success_200_witness :
  snd (run (upstream 204 (Some []))
           (fetch N sample_truthy N_to_string sample_upper (post_iata (js "jfk")) sample_env))
  = Returned (new_Response (Some (jsq "{'ok':true,'dispatched':true,'iata':'JFK'}"))
                           200 json_headers).
Proof.
  apply (dispatch_success_200 N sample_truthy N_to_string sample_upper
           (post_iata (js "jfk")) (upstream 204 (Some []))
           (Obj [(js "iata", Str (js "jfk"))]) (js "JFK")
           (js "octo") (js "aviation") (js "run-both.yml") (js "global_integration")
           (js "s3cr3t") {| status := 204; text := Some [] |});
    try reflexivity; try discriminate.
  simpl; lia.
Defined.

(** C3 on [{"iata":" lax "}]: the one outbound call. *)
Lemma dispatch_call_once_witness :
  fst (run (upstream 204 (Some []))
           (fetch N sample_truthy N_to_string sample_upper (post_iata (js " lax ")) sample_env))
  = [ ( js "https://api.github.com/repos/octo/aviation/actions/workflows/run-both.yml/dispatches",
        {| init_method := js "POST";
           init_headers :=
             [ (js "Authorization", js "Bearer s3cr3t");
               (js "Accept", js "application/vnd.github+json");
               (js "User-Agent", js "aviation-iia-run-endpoint");
               (js "Content-Type", js "application/json") ];
           init_body :=
             Some (jsq "{'ref':'global_integration','inputs':{'iata':'LAX'}}") |} ) ].
Proof.
  apply (dispatch_call_once N sample_truthy N_to_string sample_upper
           (post_iata (js " lax ")) (upstream 204 (Some []))
           (Obj [(js "iata", Str (js " lax "))]) (js "LAX")
           (js "octo") (js "aviation") (js "run-both.yml") (js "global_integration")
           (js "s3cr3t"));
    try reflexivity; discriminate.
Defined.

(** C4 on an upstream that answers 404, with a readable body and with a
    body whose read fails. *)
Lemma dispatch_failure_502_witness :
  snd (run (upstream 404 (Some (jsq "{'message':'Not Found'}")))
           (fetch N sample_truthy N_to_string sample_upper (post_iata (js "jfk")) sample_env))
  = Returned (new_Response
                (Some (jsq "{'ok':false,'error':'GitHub dispatch failed','status':404,'detail':'{\'message\':\'Not Found\'}'}"))
                502 json_headers)
  /\
  snd (run (upstream 404 None)
           (fetch N sample_truthy N_to_string sample_upper (post_iata (js "jfk")) sample_env))
  = Returned (new_Response
                (Some (jsq "{'ok':false,'error':'GitHub dispatch failed','status':404,'detail':''}"))
                502 json_headers).
Proof.
  split.
  - apply (dispatch_failure_502 N sample_truthy N_to_string sample_upper
             (post_iata (js "jfk")) sample_env
             (upstream 404 (Some (jsq "{'message':'Not Found'}")))
             (dispatch_call sample_env (js "JFK"))
             {| status := 404; text := Some (jsq "{'message':'Not Found'}") |}).
    + left; reflexivity.
    + reflexivity.
    + simpl; lia.
  - apply (dispatch_failure_502 N sample_truthy N_to_string sample_upper
             (post_iata (js "jfk")) sample_env (upstream 404 None)
             (dispatch_call sample_env (js "JFK"))
             {| status := 404; text := None |}).
    + left; reflexivity.
    + reflexivity.
    + simpl; lia.
Defined.

(** C5 with the workflow ref left empty, then with the code [ab1] and no
    binding at all. *)
Lemma config_checked_after_validation_witness :
  run (upstream 204 (Some []))
      (fetch N sample_truthy N_to_string sample_upper (post_iata (js "jfk"))
         {| GH_OWNER := Some (js "octo"); GH_REPO := Some (js "aviation");
            GH_WORKFLOW_FILE := Some (js "run-both.yml"); GH_WORKFLOW_REF := Some [];
            GH_TOKEN := Some (js "s3cr3t") |})
  = ([], Returned (new_Response (Some (jsq "{'ok':false,'error':'Missing env vars/secrets'}"))
                                500 json_headers))
  /\
  run (upstream 204 (Some []))
      (fetch N sample_truthy N_to_string sample_upper (post_iata (js "ab1"))
         {| GH_OWNER := None; GH_REPO := None; GH_WORKFLOW_FILE := None;
            GH_WORKFLOW_REF := None; GH_TOKEN := None |})
  = ([], Returned (new_Response (Some (jsq "{'ok':false,'error':'IATA must be 3 letters'}"))
                                400 json_headers)).
Proof.
  split.
  - apply (proj1 (config_checked_after_validation N sample_truthy N_to_string sample_upper)
             _ _ _ (Obj [(js "iata", Str (js "jfk"))]) (js "JFK"));
      try reflexivity.
    exists (Some []). split; [simpl; tauto | right; reflexivity].
  - apply (proj2 (config_checked_after_validation N sample_truthy N_to_string sample_upper)
             _ _ _ (Obj [(js "iata", Str (js "ab1"))]) (js "AB1"));
      reflexivity.
Defined.

(** C6 on a GET. *)
Lemma responses_carry_cors_witness :
  resp_headers (new_Response (Some (jsq "{'ok':false,'error':'POST only'}")) 405 json_headers)
  = [ (js "Access-Control-Allow-Origin", js "*");
      (js "Access-Control-Allow-Methods", js "POST,OPTIONS");
      (js "Access-Control-Allow-Headers", js "content-type");
      (js "content-type", js "application/json") ]
  /\ In 405 [405; 400; 500; 502; 200].
Proof.
  apply (responses_carry_cors N sample_truthy N_to_string sample_upper
           {| method := js "GET"; json := None |} sample_env (upstream 204 (Some []))
           (new_Response (Some (jsq "{'ok':false,'error':'POST only'}")) 405 json_headers)).
  - vm_compute. discriminate.
  - reflexivity.
Defined.

(** C7 with two tokens and an upstream that answers 403. *)
Lemma token_never_echoed_witness :
  snd (run (upstream 403 (Some (js "Forbidden")))
           (fetch N sample_truthy N_to_string sample_upper (post_iata (js "jfk"))
              (with_token sample_env (Some (js "s3cr3t")))))
  = snd (run (upstream 403 (Some (js "Forbidden")))
           (fetch N sample_truthy N_to_string sample_upper (post_iata (js "jfk"))
              (with_token sample_env (Some (js "another-token")))))
  /\ map redact_authorization
         (fst (run (upstream 403 (Some (js "Forbidden")))
                 (fetch N sample_truthy N_to_string sample_upper (post_iata (js "jfk"))
                    (with_token sample_env (Some (js "s3cr3t"))))))
     = map redact_authorization
         (fst (run (upstream 403 (Some (js "Forbidden")))
                 (fetch N sample_truthy N_to_string sample_upper (post_iata (js "jfk"))
                    (with_token sample_env (Some (js "another-token")))))).
Proof.
  apply (token_never_echoed N sample_truthy N_to_string sample_upper
           (post_iata (js "jfk")) sample_env (js "s3cr3t") (js "another-token")
           (upstream 403 (Some (js "Forbidden")))).
  - vm_compute. discriminate.
  - vm_compute. discriminate.
  - intros c1 c2 _. reflexivity.
Defined.

(** C8 on a POST whose body does not parse. *)
Lemma invalid_json_400_witness :
  run (upstream 204 (Some []))
      (fetch N sample_truthy N_to_string sample_upper
         {| method := js "POST"; json := None |} sample_env)
  = ([], Returned (new_Response (Some (jsq "{'ok':false,'error':'Invalid JSON'}"))
                                400 json_headers)).
Proof.
  apply (invalid_json_400 N sample_truthy N_to_string sample_upper
           {| method := js "POST"; json := None |} sample_env (upstream 204 (Some [])));
    reflexivity.
Defined.

(** C9 on an OPTIONS and on a DELETE. *)
Lemma method_gate_witness :
  run (upstream 204 (Some []))
      (fetch N sample_truthy N_to_string sample_upper
         {| method := js "OPTIONS"; json := None |} sample_env)
  = ([], Returned (new_Response None 204
                     [ (js "Access-Control-Allow-Origin", js "*");
                       (js "Access-Control-Allow-Methods", js "POST,OPTIONS");
                       (js "Access-Control-Allow-Headers", js "content-type") ]))
  /\
  run (upstream 204 (Some []))
      (fetch N sample_truthy N_to_string sample_upper
         {| method := js "DELETE"; json := None |} sample_env)
  = ([], Returned (new_Response (Some (jsq "{'ok':false,'error':'POST only'}"))
                                405 json_headers)).
Proof.
  split.
  - apply (proj1 (method_gate N sample_truthy N_to_string sample_upper
                    {| method := js "OPTIONS"; json := None |} sample_env
                    (upstream 204 (Some [])))).
    reflexivity.
  - apply (proj2 (method_gate N sample_truthy N_to_string sample_upper
                    {| method := js "DELETE"; json := None |} sample_env
                    (upstream 204 (Some [])))).
    + vm_compute. discriminate.
    + vm_compute. discriminate.
Defined.

(** C10 on a valid code with no binding set: status 500 and no call. *)
Lemma rejected_request_never_dispatches_witness :
  fst (run (upstream 204 (Some []))
           (fetch N sample_truthy N_to_string sample_upper (post_iata (js "jfk"))
              {| GH_OWNER := None; GH_REPO := None; GH_WORKFLOW_FILE := None;
                 GH_WORKFLOW_REF := None; GH_TOKEN := None |}))
  = [].
Proof.
  apply (rejected_request_never_dispatches N sample_truthy N_to_string sample_upper
           (post_iata (js "jfk"))
           {| GH_OWNER := None; GH_REPO := None; GH_WORKFLOW_FILE := None;
              GH_WORKFLOW_REF := None; GH_TOKEN := None |}
           (upstream 204 (Some []))
           (new_Response (Some (jsq "{'ok':false,'error':'Missing env vars/secrets'}"))
                         500 json_headers)).
  - reflexivity.
  - simpl; tauto.
Defined.


(** ** Normalization of ASCII text *)

Lemma StringToCodePoints_ascii (s : jsstring) :
  forallb is_ascii s = true -> StringToCodePoints s = s.
Proof.
  induction s as [|u rest IH]; [reflexivity|].
  intros H. cbn [forallb] in H. apply andb_true_iff in H as [Hu Hrest].
  specialize (IH Hrest).
  cbn [StringToCodePoints]. destruct rest as [|v rest']; [reflexivity|].
  assert (Hlead : is_lead u = false).
  { unfold is_ascii in Hu. apply N.ltb_lt in Hu.
    unfold is_lead. apply andb_false_iff. left. apply N.leb_gt. lia. }
  rewrite Hlead. cbn [andb]. rewrite IH. reflexivity.
Qed.

Lemma ascii_upper_ascii (u : N) : is_ascii u = true -> is_ascii (ascii_upper u) = true.
Proof.
  unfold is_ascii, ascii_upper. intros H. apply N.ltb_lt in H.
  destruct ((97 <=? u) && (u <=? 122)); apply N.ltb_lt; lia.
Qed.

Lemma toUpperCase_ascii (unicode_upper : N -> list N) (s : jsstring) :
  forallb is_ascii s = true ->
  toUpperCase unicode_upper s = map ascii_upper s.
Proof.
  intros H. unfold toUpperCase. rewrite (StringToCodePoints_ascii s H).
  induction s as [|u s IH]; [reflexivity|].
  cbn [forallb] in H. apply andb_true_iff in H as [Hu Hs].
  cbn [flat_map map]. unfold CodePointsToString in *.
  rewrite flat_map_app, (IH Hs).
  pose proof (ascii_upper_ascii u Hu) as Hup.
  unfold toUppercase. unfold is_ascii in Hu. rewrite Hu.
  fold (ascii_upper u).
  replace (if (97 <=? u) && (u <=? 122) then [u - 32] else [u]) with [ascii_upper u]
    by (unfold ascii_upper; destruct ((97 <=? u) && (u <=? 122)); reflexivity).
  cbn [flat_map app]. unfold UTF16EncodeCodePoint.
  replace (ascii_upper u <=? 65535) with true; [reflexivity|].
  symmetry. apply N.leb_le. unfold is_ascii in Hup. apply N.ltb_lt in Hup. lia.
Qed.

Lemma trimStart_white (pre s : jsstring) :
  forallb is_white_space pre = true -> trimStart (pre ++ s) = trimStart s.
Proof.
  induction pre as [|u pre IH]; [reflexivity|].
  intros H. cbn [forallb] in H. apply andb_true_iff in H as [Hu Hpre].
  cbn [app trimStart]. rewrite Hu. apply IH, Hpre.
Qed.

Lemma trimStart_black (u : N) (s : jsstring) :
  is_white_space u = false -> trimStart (u :: s) = u :: s.
Proof. intros H. cbn [trimStart]. rewrite H. reflexivity. Qed.

Lemma trimEnd_white (s suf : jsstring) :
  forallb is_white_space suf = true -> trimEnd (s ++ suf) = trimEnd s.
Proof.
  intros H. unfold trimEnd. rewrite rev_app_distr, trimStart_white; [reflexivity|].
  rewrite forallb_forall in *. intros x Hx. apply H, in_rev, Hx.
Qed.

Lemma trimEnd_black (s : jsstring) (u : N) :
  is_white_space u = false -> trimEnd (s ++ [u]) = s ++ [u].
Proof.
  intros H. unfold trimEnd. rewrite rev_app_distr. cbn [rev app].
  rewrite (trimStart_black u (rev s) H). cbn [rev]. rewrite rev_involutive. reflexivity.
Qed.

Lemma letter_not_white (u : N) : is_ascii_letter u = true -> is_white_space u = false.
Proof.
  unfold is_ascii_letter, is_white_space. intros H.
  apply orb_true_iff in H.
  assert (Hr : 65 <= u <= 122).
  { destruct H as [H|H]; apply andb_true_iff in H as [H1 H2];
      apply N.leb_le in H1, H2; lia. }
  repeat match goal with
         | |- context [u =? ?y] =>
             replace (u =? y) with false by (symmetry; apply N.eqb_neq; lia)
         end.
  replace (8192 <=? u) with false by (symmetry; apply N.leb_gt; lia).
  reflexivity.
Qed.

Lemma letter_ascii (u : N) : is_ascii_letter u = true -> is_ascii u = true.
Proof.
  unfold is_ascii_letter, is_ascii. intros H. apply orb_true_iff in H.
  apply N.ltb_lt.
  destruct H as [H|H]; apply andb_true_iff in H as [H1 H2];
    apply N.leb_le in H1, H2; lia.
Qed.

Lemma upper_of_letter (u : N) :
  is_ascii u = true ->
  is_upper_letter (ascii_upper u) = is_ascii_letter u.
Proof.
  unfold is_ascii, is_upper_letter, ascii_upper, is_ascii_letter. intros H.
  apply N.ltb_lt in H.
  destruct ((97 <=? u) && (u <=? 122)) eqn:Hlow.
  - apply andb_true_iff in Hlow as [H1 H2]. apply N.leb_le in H1, H2.
    rewrite orb_true_r. apply andb_true_iff. split; apply N.leb_le; lia.
  - rewrite orb_false_r. reflexivity.
Qed.

Lemma forallb_trimStart (P : N -> bool) (s : jsstring) :
  forallb P s = true -> forallb P (trimStart s) = true.
Proof.
  induction s as [|u s IH]; [reflexivity|].
  intros H. cbn [trimStart]. destruct (is_white_space u); [|exact H].
  cbn [forallb] in H. apply andb_true_iff in H as [_ Hs]. apply IH, Hs.
Qed.

Lemma forallb_rev (P : N -> bool) (s : jsstring) :
  forallb P s = true -> forallb P (rev s) = true.
Proof.
  rewrite !forallb_forall. intros H x Hx. apply H, in_rev, Hx.
Qed.

Lemma forallb_trim (P : N -> bool) (s : jsstring) :
  forallb P s = true -> forallb P (trim s) = true.
Proof.
  intros H. unfold trim, trimEnd.
  apply forallb_rev, forallb_trimStart, forallb_rev, forallb_trimStart, H.
Qed.

(** On ASCII text the pattern accepts the upper-cased text exactly when
    the text is three letters. *)
Lemma test_iata_upper (t : jsstring) :
  forallb is_ascii t = true ->
  test_iata (map ascii_upper t) = true <->
  exists a b c, t = [a; b; c]
                /\ is_ascii_letter a = true /\ is_ascii_letter b = true
                /\ is_ascii_letter c = true.
Proof.
  intros Hascii. split.
  - destruct t as [|a [|b [|c [|d t]]]]; try discriminate.
    cbn [forallb] in Hascii.
    apply andb_true_iff in Hascii as [Ha Hascii].
    apply andb_true_iff in Hascii as [Hb Hascii].
    apply andb_true_iff in Hascii as [Hc _].
    cbn [map test_iata].
    rewrite (upper_of_letter a Ha), (upper_of_letter b Hb), (upper_of_letter c Hc).
    intros H. apply andb_true_iff in H as [H Hlc]. apply andb_true_iff in H as [Hla Hlb].
    exists a, b, c. auto.
  - intros (a & b & c & -> & Ha & Hb & Hc).
    cbn [map test_iata].
    rewrite (upper_of_letter a (letter_ascii a Ha)), (upper_of_letter b (letter_ascii b Hb)),
      (upper_of_letter c (letter_ascii c Hc)), Ha, Hb, Hc.
    reflexivity.
Qed.

Lemma trim_padded_letters (pre suf : jsstring) (a b c : N) :
  forallb is_white_space pre = true ->
  forallb is_white_space suf = true ->
  is_ascii_letter a = true ->
  is_ascii_letter c = true ->
  trim (pre ++ [a; b; c] ++ suf) = [a; b; c].
Proof.
  intros Hpre Hsuf Ha Hc. unfold trim.
  rewrite (trimStart_white pre _ Hpre).
  cbn [app]. rewrite (trimStart_black a _ (letter_not_white a Ha)).
  change (a :: b :: c :: suf) with ([a; b; c] ++ suf).
  rewrite (trimEnd_white _ suf Hsuf).
  apply (trimEnd_black [a; b] c (letter_not_white c Hc)).
Qed.

Lemma upper_letter_fixed (u : N) : is_upper_letter u = true -> ascii_upper u = u.
Proof.
  unfold is_upper_letter, ascii_upper. intros H.
  apply andb_true_iff in H as [H1 H2]. apply N.leb_le in H1, H2.
  replace (97 <=? u) with false by (symmetry; apply N.leb_gt; lia).
  reflexivity.
Qed.

Lemma upper_letter_is_letter (u : N) : is_upper_letter u = true -> is_ascii_letter u = true.
Proof.
  unfold is_upper_letter, is_ascii_letter. intros ->. reflexivity.
Qed.

(** ** Serialised text is printable *)

Lemma printable_app (s t : jsstring) :
  printable (s ++ t) = printable s && printable t.
Proof. apply forallb_app. Qed.

Lemma hex_digit_printable (d : N) : (0x20 <=? hex_digit d) = true.
Proof.
  unfold hex_digit. destruct (d <? 10); apply N.leb_le; lia.
Qed.

Lemma UnicodeEscape_printable (u : N) : printable (UnicodeEscape u) = true.
Proof.
  unfold UnicodeEscape, printable. cbn [js list_ascii_of_string map app forallb].
  rewrite !hex_digit_printable. reflexivity.
Qed.

Lemma quote_unit_printable (u : N) : printable (quote_unit u) = true.
Proof.
  unfold quote_unit.
  repeat match goal with
         | |- context [if ?b then _ else _] => destruct b eqn:?; [reflexivity|]
         end.
  destruct (u <? 32) eqn:Hlt; [apply UnicodeEscape_printable|].
  unfold printable. cbn [forallb]. apply N.ltb_ge in Hlt.
  rewrite andb_true_r. apply N.leb_le. exact Hlt.
Qed.

Lemma surrogate_printable (u : N) : is_lead u = true -> (0x20 <=? u) = true.
Proof.
  unfold is_lead. intros H. apply andb_true_iff in H as [H _].
  apply N.leb_le in H. apply N.leb_le. lia.
Qed.

Lemma trail_printable (u : N) : is_trail u = true -> (0x20 <=? u) = true.
Proof.
  unfold is_trail. intros H. apply andb_true_iff in H as [H _].
  apply N.leb_le in H. apply N.leb_le. lia.
Qed.

Lemma quote_units_printable_upto (n : nat) (s : jsstring) :
  (List.length s <= n)%nat -> printable (quote_units s) = true.
Proof.
  revert s. induction n as [|n IH]; intros s Hlen.
  - destruct s; [reflexivity|]. cbn [List.length] in Hlen. lia.
  - destruct s as [|u rest]; [reflexivity|].
    cbn [List.length] in Hlen. cbn [quote_units].
    assert (Hrest : printable (quote_units rest) = true) by (apply IH; lia).
    destruct (is_lead u) eqn:Hlead.
    + destruct rest as [|v rest']; [apply UnicodeEscape_printable|].
      destruct (is_trail v) eqn:Htrail.
      * unfold printable. cbn [forallb].
        rewrite (surrogate_printable u Hlead), (trail_printable v Htrail).
        cbn [List.length] in Hlen. apply IH. lia.
      * rewrite printable_app, UnicodeEscape_printable, Hrest. reflexivity.
    + destruct (is_trail u).
      * rewrite printable_app, UnicodeEscape_printable, Hrest. reflexivity.
      * rewrite printable_app, quote_unit_printable, Hrest. reflexivity.
Qed.

Lemma QuoteJSONString_printable (s : jsstring) : printable (QuoteJSONString s) = true.
Proof.
  unfold QuoteJSONString. rewrite !printable_app.
  rewrite (quote_units_printable_upto (List.length s) s (le_n _)). reflexivity.
Qed.

Lemma string_of_uint_printable (d : Decimal.uint) :
  printable (js (NilEmpty.string_of_uint d)) = true.
Proof.
  unfold printable, js.
  induction d; cbn [NilEmpty.string_of_uint list_ascii_of_string map forallb];
    [reflexivity|..]; rewrite IHd; reflexivity.
Qed.

Lemma N_to_string_printable (n : N) : printable (N_to_string n) = true.
Proof.
  unfold N_to_string, NilZero.string_of_uint.
  destruct (N.to_uint n); try reflexivity; apply string_of_uint_printable.
Qed.

Lemma iata_printable (iata : jsstring) : test_iata iata = true -> printable iata = true.
Proof.
  intros H. apply test_iata_spec in H as (a & b & c & -> & Ha & Hb & Hc).
  unfold printable. cbn [forallb].
  replace (32 <=? a) with true by (symmetry; apply N.leb_le; lia).
  replace (32 <=? b) with true by (symmetry; apply N.leb_le; lia).
  replace (32 <=? c) with true by (symmetry; apply N.leb_le; lia).
  reflexivity.
Qed.

Lemma Returned_inj (A : Type) (a b : A) : Returned a = Returned b -> a = b.
Proof. intros H. injection H as ->. reflexivity. Qed.

Lemma Some_inj (A : Type) (a b : A) : Some a = Some b -> a = b.
Proof. intros H. injection H as ->. reflexivity. Qed.

(** ** Further properties of the handler *)

Section Beyond.

Variable num : Type.
Variable num_truthy : num -> bool.
Variable num_to_string : num -> jsstring.
Variable unicode_upper : N -> list N.

Local Notation "'handler'" := (fetch num num_truthy num_to_string unicode_upper).
Local Notation "'normalized'" :=
  (normalize_iata num num_truthy num_to_string unicode_upper).
Local Notation "'follows'" := (handled num num_truthy num_to_string unicode_upper).

(** The normalization of a string field. *)
Lemma normalized_string (body : value num) (s : jsstring) :
  GetV body (js "iata") = Some (Str s) ->
  normalized body = Some (toUpperCase unicode_upper (trim s)).
Proof.
  intros H. unfold normalize_iata. rewrite H.
  destruct s; reflexivity.
Qed.

(** X1.  Every outbound call is the dispatch of a validated request: it
    is made for a POST whose code passed the pattern, with the five
    bindings set, and it is the only call of the run. *)
Theorem every_call_is_a_validated_dispatch
  (request : Request num) (env : Env) (net : Network) (call : FetchCall) :
  In call (fst (run net (handler request env))) ->
  exists body iata,
    method request = js "POST"
    /\ json request = Some body
    /\ normalized body = Some iata
    /\ test_iata iata = true
    /\ config_complete env = true
    /\ call = dispatch_call env iata
    /\ fst (run net (handler request env)) = [call].
Proof.
  intros Hin.
  pose proof (run_fetch_handled num num_truthy num_to_string unicode_upper request env net)
    as Hpath.
  remember (fst (run net (handler request env))) as calls eqn:Hcalls.
  remember (snd (run net (handler request env))) as done eqn:Hdone.
  destruct Hpath; try contradiction;
    destruct Hin as [<-|[]]; exists body, iata; auto 10.
Qed.

(** X2.  The status reports what the upstream did: 200 is returned only
    after a call that was answered with a status from 200 to 299, and 502
    only after a call that was answered with a status outside it. *)
Theorem status_reflects_upstream
  (request : Request num) (env : Env) (net : Network) (resp : Response) :
  snd (run net (handler request env)) = Returned resp ->
  (resp_status resp = 200 ->
   exists call r, fst (run net (handler request env)) = [call]
                  /\ net call = Resolved r /\ 200 <= status r <= 299)
  /\
  (resp_status resp = 502 ->
   exists call r, fst (run net (handler request env)) = [call]
                  /\ net call = Resolved r /\ ~ (200 <= status r <= 299)).
Proof.
  intros Hret.
  pose proof (run_fetch_handled num num_truthy num_to_string unicode_upper request env net)
    as Hpath.
  remember (fst (run net (handler request env))) as calls eqn:Hcalls.
  remember (snd (run net (handler request env))) as done eqn:Hdone.
  destruct Hpath; try discriminate; injection Hret as <-;
    cbn [resp_status]; split; intros Hs; try discriminate.
  - exists (dispatch_call env iata), r.
    split; [reflexivity|]. split; [assumption|].
    intros Hin. apply ok_spec in Hin. congruence.
  - exists (dispatch_call env iata), r.
    split; [reflexivity|]. split; [assumption|].
    apply ok_spec. assumption.
Qed.

(** X3.  A rejected outbound call is not mapped to a response: once the
    gates are passed and the call rejects, the handler fails with that
    rejection after its single call, and returns nothing. *)
Theorem rejected_fetch_propagates
  (request : Request num) (env : Env) (net : Network) body iata :
  method request = js "POST" ->
  json request = Some body ->
  normalized body = Some iata ->
  test_iata iata = true ->
  config_complete env = true ->
  net (dispatch_call env iata) = Rejected ->
  run net (handler request env) = ([dispatch_call env iata], Threw FetchRejected).
Proof.
  intros Hm Hj Hn Ht Hc Hrej.
  rewrite (run_dispatch num num_truthy num_to_string unicode_upper
             request env net body iata Hm Hj Hn Ht Hc), Hrej.
  reflexivity.
Qed.

(** X4.  The handler fails in two ways only.  A TypeError comes from the
    normalization of a parsed POST body, before any call; a fetch
    rejection comes after the one call, which the network rejected. *)
Theorem failures_of_the_handler
  (request : Request num) (env : Env) (net : Network) (e : exn) :
  snd (run net (handler request env)) = Threw e ->
  match e with
  | TypeError =>
      fst (run net (handler request env)) = []
      /\ method request = js "POST"
      /\ exists body, json request = Some body /\ normalized body = None
  | FetchRejected =>
      exists call, fst (run net (handler request env)) = [call] /\ net call = Rejected
  end.
Proof.
  intros Hthrew.
  pose proof (run_fetch_handled num num_truthy num_to_string unicode_upper request env net)
    as Hpath.
  remember (fst (run net (handler request env))) as calls eqn:Hcalls.
  remember (snd (run net (handler request env))) as done eqn:Hdone.
  destruct Hpath; try discriminate; injection Hthrew as <-.
  - split; [reflexivity|]. split; [assumption|]. exists body. auto.
  - exists (dispatch_call env iata). auto.
Qed.

(** X5.  A missing or falsy code is a client error: when the parsed body
    of a POST is not [null] and its [iata] member is absent, [null],
    [false], zero or the empty string (or the body is not an object at
    all), the answer is status 400, IATA must be 3 letters, and no call
    is made. *)
Theorem falsy_iata_400
  (request : Request num) (env : Env) (net : Network) body field :
  method request = js "POST" ->
  json request = Some body ->
  GetV body (js "iata") = Some field ->
  ToBoolean num num_truthy field = false ->
  run net (handler request env) =
    ([], Returned (new_Response (Some (jsq "{'ok':false,'error':'IATA must be 3 letters'}"))
                                400 json_headers)).
Proof.
  intros Hm Hj Hget Hfalsy.
  apply (run_bad_iata num num_truthy num_to_string unicode_upper
           request env net body [] Hm Hj); [|reflexivity].
  unfold normalize_iata, or_else. rewrite Hget, Hfalsy. reflexivity.
Qed.

(** X6.  A scalar code never crashes the handler: when the parsed body of
    a POST is not [null] and its [iata] member is absent or is a string,
    a number, a boolean or [null], the handler does not fail with a
    TypeError. *)
Theorem scalar_iata_never_throws
  (request : Request num) (env : Env) (net : Network) body field :
  method request = js "POST" ->
  json request = Some body ->
  GetV body (js "iata") = Some field ->
  (forall elems, field <> Arr elems) ->
  (forall props, field <> Obj props) ->
  snd (run net (handler request env)) <> Threw TypeError.
Proof.
  intros Hm Hj Hget Harr Hobj Hthrew.
  assert (Hsome : normalized body <> None).
  { unfold normalize_iata, or_else. rewrite Hget.
    destruct (ToBoolean num num_truthy field); [|discriminate].
    destruct field as [| |[|]|n|s|elems|props]; try discriminate.
    - destruct (Harr elems). reflexivity.
    - destruct (Hobj props). reflexivity. }
  pose proof (run_fetch_handled num num_truthy num_to_string unicode_upper request env net)
    as Hpath.
  remember (fst (run net (handler request env))) as calls eqn:Hcalls.
  remember (snd (run net (handler request env))) as done eqn:Hdone.
  destruct Hpath; try discriminate.
  congruence.
Qed.

(** X7.  An array that holds one string is taken for that string: the
    handler treats [{"iata":["jfk"]}] like [{"iata":"jfk"}], because
    [String] of such an array is its element. *)
Theorem array_wrapped_code
  (request request' : Request num) (env : Env) (net : Network) body body' (s : jsstring) :
  method request = js "POST" ->
  method request' = js "POST" ->
  json request = Some body ->
  json request' = Some body' ->
  GetV body (js "iata") = Some (Arr [Str s]) ->
  GetV body' (js "iata") = Some (Str s) ->
  run net (handler request env) = run net (handler request' env).
Proof.
  intros Hm Hm' Hj Hj' Hget Hget'.
  assert (Hn : normalized body = normalized body').
  { rewrite (normalized_string body' s Hget').
    unfold normalize_iata, or_else. rewrite Hget.
    cbn [ToBoolean ToString is_nullish app]. rewrite app_nil_r. reflexivity. }
  unfold fetch. rewrite Hm, Hm', Hj, Hj', Hn. reflexivity.
Qed.

Lemma normalized_padded_letters (body : value num) (pre suf : jsstring) (a b c : N) :
  GetV body (js "iata") = Some (Str (pre ++ [a; b; c] ++ suf)) ->
  forallb is_white_space pre = true ->
  forallb is_white_space suf = true ->
  is_ascii_letter a = true ->
  is_ascii_letter b = true ->
  is_ascii_letter c = true ->
  normalized body = Some [ascii_upper a; ascii_upper b; ascii_upper c].
Proof.
  intros Hget Hpre Hsuf Ha Hb Hc.
  assert (Hascii : forallb is_ascii [a; b; c] = true).
  { cbn [forallb]. rewrite (letter_ascii a Ha), (letter_ascii b Hb), (letter_ascii c Hc).
    reflexivity. }
  rewrite (normalized_string body _ Hget).
  rewrite (trim_padded_letters pre suf a b c Hpre Hsuf Ha Hc).
  rewrite (toUpperCase_ascii unicode_upper _ Hascii). reflexivity.
Qed.

(** X8.  White space around the code and the case of its letters do not
    matter: a string made of white space, three ASCII letters of either
    case and white space again is normalized to the three letters in
    upper case, which the pattern accepts. *)
Theorem padding_and_case_ignored (body : value num) (pre suf : jsstring) (a b c : N) :
  GetV body (js "iata") = Some (Str (pre ++ [a; b; c] ++ suf)) ->
  forallb is_white_space pre = true ->
  forallb is_white_space suf = true ->
  is_ascii_letter a = true ->
  is_ascii_letter b = true ->
  is_ascii_letter c = true ->
  normalized body = Some [ascii_upper a; ascii_upper b; ascii_upper c]
  /\ test_iata [ascii_upper a; ascii_upper b; ascii_upper c] = true.
Proof.
  intros Hget Hpre Hsuf Ha Hb Hc. split.
  - apply (normalized_padded_letters body pre suf a b c); assumption.
  - apply (test_iata_upper [a; b; c]).
    + cbn [forallb].
      rewrite (letter_ascii a Ha), (letter_ascii b Hb), (letter_ascii c Hc).
      reflexivity.
    + exists a, b, c. auto.
Qed.

(** X9.  For an ASCII string the validation is exact: the code is
    accepted if and only if the string, once trimmed, is three ASCII
    letters. *)
Theorem ascii_code_accepted_iff (body : value num) (s : jsstring) :
  GetV body (js "iata") = Some (Str s) ->
  forallb is_ascii s = true ->
  exists iata,
    normalized body = Some iata
    /\ (test_iata iata = true <->
        exists a b c, trim s = [a; b; c]
                      /\ is_ascii_letter a = true /\ is_ascii_letter b = true
                      /\ is_ascii_letter c = true).
Proof.
  intros Hget Hascii.
  exists (map ascii_upper (trim s)). split.
  - rewrite (normalized_string body s Hget).
    rewrite (toUpperCase_ascii unicode_upper (trim s) (forallb_trim is_ascii s Hascii)).
    reflexivity.
  - apply test_iata_upper, forallb_trim, Hascii.
Qed.

(** X10.  An accepted code is a fixed point of the normalization: sent
    again as the [iata] string it is normalized to itself, so the code of
    a 200 response can be submitted as it is. *)
Theorem accepted_code_is_stable (body : value num) (iata : jsstring) :
  test_iata iata = true ->
  GetV body (js "iata") = Some (Str iata) ->
  normalized body = Some iata.
Proof.
  intros Ht Hget. unfold test_iata in Ht.
  destruct iata as [|a [|b [|c [|d s]]]]; try discriminate.
  apply andb_true_iff in Ht as [Ht Hc]. apply andb_true_iff in Ht as [Ha Hb].
  rewrite (normalized_padded_letters body [] [] a b c Hget eq_refl eq_refl
             (upper_letter_is_letter a Ha) (upper_letter_is_letter b Hb)
             (upper_letter_is_letter c Hc)).
  rewrite (upper_letter_fixed a Ha), (upper_letter_fixed b Hb), (upper_letter_fixed c Hc).
  reflexivity.
Qed.


(** X12.  The pattern is applied to the upper-cased text, so an input of
    two characters is accepted when the engine upper-cases one of them
    to two letters (as it does the ligature fi): a character outside
    ASCII, not white space, whose upper case is two letters, followed by
    an ASCII letter, is normalized to a valid three-letter code. *)
Theorem expanding_character_accepted (body : value num) (cp x y c : N) :
  GetV body (js "iata") = Some (Str [cp; c]) ->
  0x80 <= cp ->
  is_white_space cp = false ->
  unicode_upper cp = [x; y] ->
  is_upper_letter x = true ->
  is_upper_letter y = true ->
  is_ascii_letter c = true ->
  normalized body = Some [x; y; ascii_upper c]
  /\ test_iata [x; y; ascii_upper c] = true.
Proof.
  intros Hget Hcp Hws Hup Hx Hy Hc.
  assert (Hcu : is_upper_letter (ascii_upper c) = true).
  { rewrite (upper_of_letter c (letter_ascii c Hc)). exact Hc. }
  split.
  - rewrite (normalized_string body _ Hget). f_equal.
    assert (Htrim : trim [cp; c] = [cp; c]).
    { unfold trim. rewrite (trimStart_black cp [c] Hws).
      apply (trimEnd_black [cp] c (letter_not_white c Hc)). }
    rewrite Htrim. unfold toUpperCase. cbn [StringToCodePoints].
    assert (Htrail : is_trail c = false).
    { pose proof (letter_ascii c Hc) as Ha. unfold is_ascii in Ha. apply N.ltb_lt in Ha.
      unfold is_trail. apply andb_false_iff. left. apply N.leb_gt. lia. }
    rewrite Htrail, andb_false_r. cbn [flat_map].
    unfold toUppercase at 1.
    replace (cp <? 128) with false by (symmetry; apply N.ltb_ge; exact Hcp).
    rewrite Hup. unfold toUppercase.
    pose proof (letter_ascii c Hc) as Ha. unfold is_ascii in Ha. rewrite Ha.
    fold (ascii_upper c).
    replace (if (97 <=? c) && (c <=? 122) then [c - 32] else [c]) with [ascii_upper c]
      by (unfold ascii_upper; destruct ((97 <=? c) && (c <=? 122)); reflexivity).
    cbn [app]. unfold CodePointsToString. cbn [flat_map app].
    unfold UTF16EncodeCodePoint.
    unfold is_upper_letter in Hx, Hy, Hcu.
    apply andb_true_iff in Hx as [_ Hx], Hy as [_ Hy], Hcu as [_ Hcu'].
    apply N.leb_le in Hx, Hy, Hcu'.
    replace (x <=? 65535) with true by (symmetry; apply N.leb_le; lia).
    replace (y <=? 65535) with true by (symmetry; apply N.leb_le; lia).
    replace (ascii_upper c <=? 65535) with true by (symmetry; apply N.leb_le; lia).
    reflexivity.
  - cbn [test_iata]. rewrite Hx, Hy, Hcu. reflexivity.
Qed.

(** X13.  No response body carries a control character: whatever text the
    upstream sent, the body the handler returns has no code unit below
    U+0020, the serialisation having escaped them. *)
Theorem response_bodies_are_printable
  (request : Request num) (env : Env) (net : Network) (resp : Response) (body : jsstring) :
  snd (run net (handler request env)) = Returned resp ->
  resp_body resp = Some body ->
  printable body = true.
Proof.
  intros Hret Hbody.
  pose proof (run_fetch_handled num num_truthy num_to_string unicode_upper request env net)
    as Hpath.
  remember (fst (run net (handler request env))) as calls eqn:Hcalls.
  remember (snd (run net (handler request env))) as done eqn:Hdone.
  destruct Hpath; try discriminate; apply Returned_inj in Hret; subst resp;
    cbv beta iota delta [resp_body] in Hbody; try discriminate;
    try (injection Hbody as <-; reflexivity).
  - rewrite stringify_dispatch_failed in Hbody. apply Some_inj in Hbody. subst body.
    rewrite !printable_app, N_to_string_printable, QuoteJSONString_printable.
    reflexivity.
  - rewrite (stringify_dispatched iata) in Hbody by assumption.
    apply Some_inj in Hbody. subst body.
    rewrite !printable_app, (iata_printable iata) by assumption.
    reflexivity.
Qed.

(** X14.  The bindings are not consulted for a request that is turned
    away: when the answer is 204, 405 or 400, the run is the same under
    any other bindings. *)
Theorem rejection_ignores_bindings
  (request : Request num) (env env' : Env) (net : Network) (resp : Response) :
  snd (run net (handler request env)) = Returned resp ->
  In (resp_status resp) [204; 405; 400] ->
  run net (handler request env') = run net (handler request env).
Proof.
  intros Hret Hst.
  pose proof (run_fetch_handled num num_truthy num_to_string unicode_upper request env net)
    as Hpath.
  remember (fst (run net (handler request env))) as calls eqn:Hcalls.
  remember (snd (run net (handler request env))) as done eqn:Hdone.
  destruct Hpath as
    [ Hm | Hm1 Hm2 | Hm Hj | body Hm Hj Hn | body iata Hm Hj Hn Ht
    | body iata Hm Hj Hn Ht Hc | body iata Hm Hj Hn Ht Hc Hrej
    | body iata r Hm Hj Hn Ht Hc Hres Hok
    | body iata r Hm Hj Hn Ht Hc Hres Hok ];
    try discriminate; apply Returned_inj in Hret; subst resp.
  - unfold fetch. rewrite Hm. reflexivity.
  - apply str_eqb_neq in Hm1, Hm2. unfold fetch. rewrite Hm1, Hm2. reflexivity.
  - unfold fetch. rewrite Hm, Hj. reflexivity.
  - rewrite !(run_bad_iata num num_truthy num_to_string unicode_upper
                request _ net body iata Hm Hj Hn Ht).
    reflexivity.
  - cbv beta iota delta [resp_status] in Hst.
    destruct Hst as [Hst|[Hst|[Hst|[]]]]; discriminate.
  - cbv beta iota delta [resp_status] in Hst.
    destruct Hst as [Hst|[Hst|[Hst|[]]]]; discriminate.
  - cbv beta iota delta [resp_status] in Hst.
    destruct Hst as [Hst|[Hst|[Hst|[]]]]; discriminate.
Qed.

(** X15.  The status of a rejection names its cause.  204 answers only
    OPTIONS; 405 only a method that is neither OPTIONS nor POST; 400 only
    a POST whose body does not parse or whose code fails the pattern; 500
    only a POST with an accepted code and a binding that is unset or
    empty. *)
Theorem status_names_the_cause
  (request : Request num) (env : Env) (net : Network) (resp : Response) :
  snd (run net (handler request env)) = Returned resp ->
  (resp_status resp = 204 -> method request = js "OPTIONS")
  /\ (resp_status resp = 405 ->
      method request <> js "OPTIONS" /\ method request <> js "POST")
  /\ (resp_status resp = 400 ->
      method request = js "POST"
      /\ (json request = None
          \/ exists body iata, json request = Some body
                               /\ normalized body = Some iata
                               /\ test_iata iata = false))
  /\ (resp_status resp = 500 ->
      method request = js "POST"
      /\ (exists body iata, json request = Some body
                            /\ normalized body = Some iata
                            /\ test_iata iata = true)
      /\ exists x, In x [GH_OWNER env; GH_REPO env; GH_WORKFLOW_FILE env;
                         GH_WORKFLOW_REF env; GH_TOKEN env]
                   /\ (x = None \/ x = Some [])).
Proof.
  intros Hret.
  pose proof (run_fetch_handled num num_truthy num_to_string unicode_upper request env net)
    as Hpath.
  remember (fst (run net (handler request env))) as calls eqn:Hcalls.
  remember (snd (run net (handler request env))) as done eqn:Hdone.
  destruct Hpath as
    [ Hm | Hm1 Hm2 | Hm Hj | body Hm Hj Hn | body iata Hm Hj Hn Ht
    | body iata Hm Hj Hn Ht Hc | body iata Hm Hj Hn Ht Hc Hrej
    | body iata r Hm Hj Hn Ht Hc Hres Hok
    | body iata r Hm Hj Hn Ht Hc Hres Hok ];
    try discriminate; apply Returned_inj in Hret; subst resp;
    cbv beta iota delta [resp_status];
    (split; [|split; [|split]]); intros Hs; try discriminate Hs.
  - exact Hm.
  - split; assumption.
  - split; [assumption|]. left. assumption.
  - split; [assumption|]. right. exists body, iata. auto.
  - split; [assumption|]. split; [exists body, iata; auto|].
    unfold config_complete in Hc.
    destruct (truthy (GH_OWNER env)) eqn:E1;
      [|exists (GH_OWNER env); split; [simpl; auto | apply truthy_false, E1]].
    destruct (truthy (GH_REPO env)) eqn:E2;
      [|exists (GH_REPO env); split; [simpl; auto | apply truthy_false, E2]].
    destruct (truthy (GH_WORKFLOW_FILE env)) eqn:E3;
      [|exists (GH_WORKFLOW_FILE env); split; [simpl; auto | apply truthy_false, E3]].
    destruct (truthy (GH_WORKFLOW_REF env)) eqn:E4;
      [|exists (GH_WORKFLOW_REF env); split; [simpl; auto | apply truthy_false, E4]].
    destruct (truthy (GH_TOKEN env)) eqn:E5;
      [discriminate Hc
      |exists (GH_TOKEN env); split; [simpl; auto 10 | apply truthy_false, E5]].
Qed.

End Beyond.

(** ** The further properties on sample requests *)

Lemma every_call_is_a_validated_dispatch_witness :
  exists body iata,
    method (post_iata (js "jfk")) = js "POST"
    /\ json (post_iata (js "jfk")) = Some body
    /\ sample_normalize body = Some iata
    /\ test_iata iata = true
    /\ config_complete sample_env = true
    /\ dispatch_call sample_env (js "JFK") = dispatch_call sample_env iata
    /\ fst (run (upstream 204 (Some [])) (sample_fetch (post_iata (js "jfk")) sample_env))
       = [dispatch_call sample_env (js "JFK")].
Proof.
  apply (every_call_is_a_validated_dispatch N sample_truthy N_to_string sample_upper
           (post_iata (js "jfk")) sample_env (upstream 204 (Some []))
           (dispatch_call sample_env (js "JFK"))).
  left; reflexivity.
Defined.

Lemma status_reflects_upstream_witness :
  (200 = 200 ->
   exists call r,
     fst (run (upstream 204 (Some [])) (sample_fetch (post_iata (js "jfk")) sample_env))
     = [call]
     /\ upstream 204 (Some []) call = Resolved r /\ 200 <= status r <= 299)
  /\
  (200 = 502 ->
   exists call r,
     fst (run (upstream 204 (Some [])) (sample_fetch (post_iata (js "jfk")) sample_env))
     = [call]
     /\ upstream 204 (Some []) call = Resolved r /\ ~ (200 <= status r <= 299)).
Proof.
  apply (status_reflects_upstream N sample_truthy N_to_string sample_upper
           (post_iata (js "jfk")) sample_env (upstream 204 (Some []))
           (new_Response (Some (jsq "{'ok':true,'dispatched':true,'iata':'JFK'}"))
                         200 json_headers)).
  reflexivity.
Defined.

Lemma rejected_fetch_propagates_witness :
  run unreachable (sample_fetch (post_iata (js "jfk")) sample_env)
  = ([dispatch_call sample_env (js "JFK")], Threw FetchRejected).
Proof.
  apply (rejected_fetch_propagates N sample_truthy N_to_string sample_upper
           (post_iata (js "jfk")) sample_env unreachable
           (Obj [(js "iata", Str (js "jfk"))]) (js "JFK"));
    reflexivity.
Defined.

Lemma failures_of_the_handler_witness :
  fst (run unreachable (sample_fetch {| method := js "POST"; json := Some Null |} sample_env))
  = []
  /\ js "POST" = js "POST"
  /\ exists body, Some Null = Some body /\ sample_normalize body = None.
Proof.
  apply (failures_of_the_handler N sample_truthy N_to_string sample_upper
           {| method := js "POST"; json := Some Null |} sample_env unreachable TypeError).
  reflexivity.
Defined.

Lemma falsy_iata_400_witness :
  run unreachable (sample_fetch {| method := js "POST"; json := Some (Obj []) |} sample_env)
  = ([], Returned (new_Response (Some (jsq "{'ok':false,'error':'IATA must be 3 letters'}"))
                                400 json_headers))
  /\
  run unreachable
      (sample_fetch {| method := js "POST"; json := Some (Obj [(js "iata", Number 0)]) |}
         sample_env)
  = ([], Returned (new_Response (Some (jsq "{'ok':false,'error':'IATA must be 3 letters'}"))
                                400 json_headers)).
Proof.
  split.
  - apply (falsy_iata_400 N sample_truthy N_to_string sample_upper
             {| method := js "POST"; json := Some (Obj []) |} sample_env unreachable
             (Obj []) Undefined);
      reflexivity.
  - apply (falsy_iata_400 N sample_truthy N_to_string sample_upper
             {| method := js "POST"; json := Some (Obj [(js "iata", Number 0)]) |}
             sample_env unreachable (Obj [(js "iata", Number 0)]) (Number 0));
      reflexivity.
Defined.

Lemma scalar_iata_never_throws_witness :
  snd (run unreachable
         (sample_fetch {| method := js "POST"; json := Some (Obj [(js "iata", Number 7)]) |}
            sample_env))
  <> Threw TypeError.
Proof.
  apply (scalar_iata_never_throws N sample_truthy N_to_string sample_upper
           {| method := js "POST"; json := Some (Obj [(js "iata", Number 7)]) |}
           sample_env unreachable (Obj [(js "iata", Number 7)]) (Number 7));
    try reflexivity; discriminate.
Defined.

Lemma array_wrapped_code_witness :
  run (upstream 204 (Some []))
      (sample_fetch {| method := js "POST";
                       json := Some (Obj [(js "iata", Arr [Str (js "jfk")])]) |} sample_env)
  = run (upstream 204 (Some [])) (sample_fetch (post_iata (js "jfk")) sample_env).
Proof.
  apply (array_wrapped_code N sample_truthy N_to_string sample_upper
           {| method := js "POST"; json := Some (Obj [(js "iata", Arr [Str (js "jfk")])]) |}
           (post_iata (js "jfk")) sample_env (upstream 204 (Some []))
           (Obj [(js "iata", Arr [Str (js "jfk")])]) (Obj [(js "iata", Str (js "jfk"))])
           (js "jfk"));
    reflexivity.
Defined.

(** A space and a no-break space before, a line feed after, mixed case. *)
Lemma padding_and_case_ignored_witness :
  sample_normalize (Obj [(js "iata", Str ([0x20; 0xA0] ++ js "jFk" ++ [0xA]))])
  = Some (js "JFK")
  /\ test_iata (js "JFK") = true.
Proof.
  apply (padding_and_case_ignored N sample_truthy N_to_string sample_upper
           (Obj [(js "iata", Str ([0x20; 0xA0] ++ js "jFk" ++ [0xA]))])
           [0x20; 0xA0] [0xA] 0x6A 0x46 0x6B);
    reflexivity.
Defined.

Lemma ascii_code_accepted_iff_witness :
  exists iata,
    sample_normalize (Obj [(js "iata", Str (js " ab1 "))]) = Some iata
    /\ (test_iata iata = true <->
        exists a b c, trim (js " ab1 ") = [a; b; c]
                      /\ is_ascii_letter a = true /\ is_ascii_letter b = true
                      /\ is_ascii_letter c = true).
Proof.
  apply (ascii_code_accepted_iff N sample_truthy N_to_string sample_upper
           (Obj [(js "iata", Str (js " ab1 "))]) (js " ab1 "));
    reflexivity.
Defined.

Lemma accepted_code_is_stable_witness :
  sample_normalize (Obj [(js "iata", Str (js "JFK"))]) = Some (js "JFK").
Proof.
  apply (accepted_code_is_stable N sample_truthy N_to_string sample_upper
           (Obj [(js "iata", Str (js "JFK"))]) (js "JFK"));
    reflexivity.
Defined.


(** The ligature fi (U+FB01) followed by [a]. *)
Lemma expanding_character_accepted_witness :
  sample_normalize (Obj [(js "iata", Str [0xFB01; 0x61])]) = Some (js "FIA")
  /\ test_iata (js "FIA") = true.
Proof.
  apply (expanding_character_accepted N sample_truthy N_to_string sample_upper
           (Obj [(js "iata", Str [0xFB01; 0x61])]) 0xFB01 0x46 0x49 0x61);
    try reflexivity.
  simpl; lia.
Defined.

(** An upstream text with a line feed in it. *)
Lemma response_bodies_are_printable_witness :
  printable
    (jsq "{'ok':false,'error':'GitHub dispatch failed','status':404,'detail':'a\nb'}")
  = true.
Proof.
  apply (response_bodies_are_printable N sample_truthy N_to_string sample_upper
           (post_iata (js "jfk")) sample_env (upstream 404 (Some [0x61; 0xA; 0x62]))
           (new_Response
              (Some (jsq "{'ok':false,'error':'GitHub dispatch failed','status':404,'detail':'a\nb'}"))
              502 json_headers));
    reflexivity.
Defined.

Lemma rejection_ignores_bindings_witness :
  run unreachable (sample_fetch (post_iata (js "ab1")) empty_env)
  = run unreachable (sample_fetch (post_iata (js "ab1")) sample_env).
Proof.
  apply (rejection_ignores_bindings N sample_truthy N_to_string sample_upper
           (post_iata (js "ab1")) sample_env empty_env unreachable
           (new_Response (Some (jsq "{'ok':false,'error':'IATA must be 3 letters'}"))
                         400 json_headers)).
  - reflexivity.
  - simpl; tauto.
Defined.

Lemma status_names_the_cause_witness :
  (500 = 204 -> method (post_iata (js "jfk")) = js "OPTIONS")
  /\ (500 = 405 ->
      method (post_iata (js "jfk")) <> js "OPTIONS"
      /\ method (post_iata (js "jfk")) <> js "POST")
  /\ (500 = 400 ->
      method (post_iata (js "jfk")) = js "POST"
      /\ (json (post_iata (js "jfk")) = None
          \/ exists body iata, json (post_iata (js "jfk")) = Some body
                               /\ sample_normalize body = Some iata
                               /\ test_iata iata = false))
  /\ (500 = 500 ->
      method (post_iata (js "jfk")) = js "POST"
      /\ (exists body iata, json (post_iata (js "jfk")) = Some body
                            /\ sample_normalize body = Some iata
                            /\ test_iata iata = true)
      /\ exists x, In x [GH_OWNER empty_env; GH_REPO empty_env; GH_WORKFLOW_FILE empty_env;
                         GH_WORKFLOW_REF empty_env; GH_TOKEN empty_env]
                   /\ (x = None \/ x = Some [])).
Proof.
  apply (status_names_the_cause N sample_truthy N_to_string sample_upper
           (post_iata (js "jfk")) empty_env unreachable
           (new_Response (Some (jsq "{'ok':false,'error':'Missing env vars/secrets'}"))
                         500 json_headers)).
  reflexivity.
Defined.
